(** * Declarative infrastructure stacks of the demoapp repository

    The repository declares cloud and cluster resources through a
    provisioning SDK: every constructor call of a resource class registers
    one resource with the engine, in program order.  The embedding below
    keeps that reading: a stack program is a computation in a small
    state-and-exception monad whose state is the ordered list of declared
    resources and of exported stack outputs, and whose exceptions are the
    Python exceptions the program can raise while it is evaluated. *)

From Stdlib Require Import String Ascii List ZArith Bool Lia DecimalString.
From Stdlib Require DecimalNat DecimalFacts.
Import ListNotations.

Set Warnings "-register-all".

Local Open Scope list_scope.
Local Open Scope string_scope.

(** ** Python strings *)

Module PyStr.

(** [replace_from old new skip s]: scan [s] from the left; [skip] counts the
    characters of a match that are still to be dropped. *)
Fixpoint replace_from (old new : string) (skip : nat) (s : string) : string :=
  match s with
  | EmptyString => EmptyString
  | String c rest =>
      match skip with
      | S k => replace_from old new k rest
      | O =>
          if prefix old s
          then new ++ replace_from old new (String.length old - 1) rest
          else String c (replace_from old new 0 rest)
      end
  end.

Fixpoint interleave (new s : string) : string :=
  match s with
  | EmptyString => EmptyString
  | String c rest => String c (new ++ interleave new rest)
  end.

(** [s.replace(old, new)]: every non-overlapping occurrence of [old],
    leftmost first.  An empty [old] matches before every character and at
    the end. *)
Definition replace (s old new : string) : string :=
  match old with
  | EmptyString => new ++ interleave new s
  | String _ _ => replace_from old new 0 s
  end.

(** [old in s] *)
Fixpoint contains (old s : string) : bool :=
  prefix old s ||
  match s with
  | EmptyString => false
  | String _ rest => contains old rest
  end.

Fixpoint split_from (sep : string) (skip : nat) (cur s : string) : list string :=
  match s with
  | EmptyString => [cur]
  | String c rest =>
      match skip with
      | S k => split_from sep k cur rest
      | O =>
          if prefix sep s
          then cur :: split_from sep (String.length sep - 1) EmptyString rest
          else split_from sep 0 (cur ++ String c EmptyString) rest
      end
  end.

(** [s.split(sep)] for a non-empty separator. *)
Definition split (s sep : string) : list string := split_from sep 0 EmptyString s.

(** [sep.join(parts)] *)
Definition join (sep : string) (parts : list string) : string := String.concat sep parts.

(** [str(n)] for integers. *)
Definition of_Z (z : Z) : string := NilZero.string_of_int (Z.to_int z).
Definition of_nat (n : nat) : string := NilZero.string_of_uint (Nat.to_uint n).

End PyStr.

(** ** Exceptions and results *)

Inductive TypeErrorReason :=
| UnexpectedKeyword (callee kw : string)
| MissingRequired (callee : string) (params : list string)
| NotAMapping
| NotIterable.

Inductive Exn :=
| TypeError (why : TypeErrorReason)
| KeyError (key : string)
| IndexError
| AttributeError (attr : string)
| ValueError (why : string)
| ConfigMissingError (key : string)
| ConfigTypeError (key : string).

Inductive Result (A : Type) :=
| Ok (a : A)
| Raise (e : Exn).
Arguments Ok {A} a.
Arguments Raise {A} e.


(** ** Outputs and property values *)

(** A resource is identified by its class and its declared name. *)
Definition URN : Type := string * string.

Definition urn_eqb (a b : URN) : bool :=
  String.eqb (fst a) (fst b) && String.eqb (snd a) (snd b).

(** An output reference: the value it resolves to (or the exception its
    resolution raises), whether the engine treats it as a secret, and the
    resources it was computed from. *)
Record Output (A : Type) := mkOutput {
  resolved : Result A;
  is_secret : bool;
  deps : list URN
}.
Arguments mkOutput {A}.
Arguments resolved {A}.
Arguments is_secret {A}.
Arguments deps {A}.

(** [o.apply(f)]: the transformed value keeps secrecy and dependencies. *)
Definition apply {A B} (f : A -> B) (o : Output A) : Output B :=
  {| resolved := match resolved o with Ok a => Ok (f a) | Raise e => Raise e end;
     is_secret := is_secret o;
     deps := deps o |}.

(** Scalars as a configuration file holds them. *)
Inductive Scalar :=
| SNone
| SBool (b : bool)
| SInt (z : Z)
| SStr (s : string).

(** Python truth value of a scalar. *)
Definition truthy (v : Scalar) : bool :=
  match v with
  | SNone => false
  | SBool b => b
  | SInt z => negb (Z.eqb z 0)
  | SStr s => negb (String.eqb s "")
  end.

(** [str(v)], as an f-string formats a scalar. *)
Definition str_of (v : Scalar) : string :=
  match v with
  | SNone => "None"
  | SBool true => "True"
  | SBool false => "False"
  | SInt z => PyStr.of_Z z
  | SStr s => s
  end.

(** Property values handed to resource constructors: plain data, or an
    output wherever the SDK accepts an input. *)
Inductive Value :=
| VLit (s : Scalar)
| VList (l : list Value)
| VDict (d : list (string * Value))
| VOut (o : Output Value).

Definition VNone : Value := VLit SNone.
Definition VStr (s : string) : Value := VLit (SStr s).
Definition VInt (z : Z) : Value := VLit (SInt z).
Definition VBool (b : bool) : Value := VLit (SBool b).
Definition VStrs (l : list string) : Value := VList (map VStr l).
Definition out_str (o : Output string) : Value := VOut (apply VStr o).
Definition tags_value (tags : list (string * string)) : Value :=
  VDict (map (fun kv => (fst kv, VStr (snd kv))) tags).

(** Plain data, as parsed from a configuration value or published by a
    stack: it holds no output. *)
Inductive Data :=
| DLit (s : Scalar)
| DList (l : list Data)
| DDict (d : list (string * Data)).

Fixpoint of_data (d : Data) : Value :=
  match d with
  | DLit s => VLit s
  | DList l => VList (map of_data l)
  | DDict kvs => VDict (map (fun kv => match kv with (k, v) => (k, of_data v) end) kvs)
  end.

Definition DNone : Data := DLit SNone.
Definition DStr (s : string) : Data := DLit (SStr s).
Definition DInt (z : Z) : Data := DLit (SInt z).
Definition DBool (b : bool) : Data := DLit (SBool b).

(** Dictionaries keep insertion order, as Python's do. *)
Definition dict (A : Type) : Type := list (string * A).

Fixpoint dict_get {A} (d : dict A) (k : string) : option A :=
  match d with
  | [] => None
  | (k', v) :: rest => if String.eqb k' k then Some v else dict_get rest k
  end.

(** [d.get(k, default)] *)
Definition get_default {A} (d : dict A) (k : string) (default : A) : A :=
  match dict_get d k with Some v => v | None => default end.

(** [d[k]] *)
Definition getitem {A} (d : dict A) (k : string) : Result A :=
  match dict_get d k with Some v => Ok v | None => Raise (KeyError k) end.

Fixpoint dict_set {A} (d : dict A) (k : string) (v : A) : dict A :=
  match d with
  | [] => [(k, v)]
  | (k', v') :: rest =>
      if String.eqb k' k then (k', v) :: rest else (k', v') :: dict_set rest k v
  end.

(** [{**a, **b}] *)
Definition dict_merge {A} (a b : dict A) : dict A :=
  fold_left (fun acc kv => dict_set acc (fst kv) (snd kv)) b a.

(** All outputs that occur in a property value. *)
Fixpoint outputs_of (v : Value) : list (Output Value) :=
  match v with
  | VLit _ => []
  | VList l => flat_map outputs_of l
  | VDict d => flat_map (fun kv => outputs_of (snd kv)) d
  | VOut o =>
      o :: match resolved o with Ok w => outputs_of w | Raise _ => [] end
  end.

(** ** Resources, program state and the evaluation monad *)

Record Resource := mkResource {
  rtype : string;
  rname : string;
  rparent : option URN;
  additional_secret_outputs : list string;
  rprops : dict Value
}.

Definition urn_of (r : Resource) : URN := (rtype r, rname r).

Record State := mkState {
  resources : list Resource;
  exports : dict Value
}.

Definition initial : State := {| resources := []; exports := [] |}.

Definition M (A : Type) : Type := State -> Result A * State.

Definition ret {A} (a : A) : M A := fun st => (Ok a, st).
Definition raise {A} (e : Exn) : M A := fun st => (Raise e, st).
Definition bind {A B} (c : M A) (k : A -> M B) : M B :=
  fun st =>
    match c st with
    | (Ok a, st') => k a st'
    | (Raise e, st') => (Raise e, st')
    end.
Definition lift {A} (r : Result A) : M A := fun st => (r, st).

Declare Scope py_scope.
Delimit Scope py_scope with py.
Notation "x <- c ;; k" := (bind c (fun x => k))
  (at level 61, c at next level, right associativity) : py_scope.
Local Open Scope py_scope.

Fixpoint mapM {A B} (f : A -> M B) (l : list A) : M (list B) :=
  match l with
  | [] => ret []
  | a :: rest => b <- f a ;; bs <- mapM f rest ;; ret (b :: bs)
  end.

Fixpoint enumerate_from {A} (i : nat) (l : list A) : list (nat * A) :=
  match l with
  | [] => []
  | a :: rest => (i, a) :: enumerate_from (S i) rest
  end.
Definition enumerate {A} (l : list A) : list (nat * A) := enumerate_from 0 l.

(** Declaring a resource appends it to the program's resource list and
    hands back its identity. *)
Definition declare (ty name : string) (parent : option URN)
    (secret_outputs : list string) (props : dict Value) : M URN :=
  fun st =>
    (Ok (ty, name),
     {| resources := (resources st ++ [mkResource ty name parent secret_outputs props])%list;
        exports := exports st |}).

(** [pulumi.export(key, value)] *)
Definition export (key : string) (v : Value) : M unit :=
  fun st => (Ok tt, {| resources := resources st; exports := (exports st ++ [(key, v)])%list |}).

Definition run {A} (c : M A) : Result A * State := c initial.

(** ** What lies outside the repository *)

(** Values this code only receives: attributes the provider computes for a
    declared resource, results of provider look-ups, and the text the JSON
    and YAML serialisers print. *)
Record Externals := mkExternals {
  attribute : URN -> string -> string;
  get_zone_id : string -> string;
  get_certificate_id : string -> string;
  get_availability_zone_names : list string;
  get_policy_document_json : list Value -> string;
  json_dumps : Value -> string;
  yaml_dump : Value -> string
}.

(** What a resource constructor hands back to the program: the identity of
    the declared resource and the outputs its options mark as secret. *)
Record Handle := mkHandle {
  urn : URN;
  handle_secrets : list string
}.

Definition handle_of (r : Resource) : Handle :=
  {| urn := urn_of r; handle_secrets := additional_secret_outputs r |}.

(** [resource.attr]: an output computed from that resource; it is secret
    when the resource options list it among the additional secret outputs. *)
Definition attr (ext : Externals) (r : Handle) (a : string) : Output string :=
  {| resolved := Ok (attribute ext (urn r) a);
     is_secret := existsb (String.eqb a) (handle_secrets r);
     deps := [urn r] |}.

(** A declaration whose resource the program goes on to use. *)
Definition resource (ty name : string) (parent : option URN)
    (secret_outputs : list string) (props : dict Value) : M Handle :=
  _ <- declare ty name parent secret_outputs props ;;
  ret {| urn := (ty, name); handle_secrets := secret_outputs |}.

(** *** Stack configuration *)

(** The configuration of a stack, each value already parsed. *)
Definition Config : Type := dict Data.

(** [config.get(key)], [config.get_object(key)]: [None] when the key is unset. *)
Definition config_get (c : Config) (key : string) : Value :=
  of_data (get_default c key DNone).
Definition config_get_object (c : Config) (key : string) : Value :=
  of_data (get_default c key DNone).

(** [config.require(key)] *)
Definition config_require (c : Config) (key : string) : Result Value :=
  match dict_get c key with
  | Some v => Ok (of_data v)
  | None => Raise (ConfigMissingError key)
  end.

(** [config.get_int(key)] *)
Definition config_get_int (c : Config) (key : string) : Result Value :=
  match dict_get c key with
  | None => Ok VNone
  | Some (DLit (SInt z)) => Ok (VInt z)
  | Some _ => Raise (ConfigTypeError key)
  end.


(** *** Stack references *)

(** An output a stack has published: its value and whether it is secret. *)
Record Published := mkPublished {
  published_secret : bool;
  published_value : Data
}.

(** The outputs the other stacks have published, by stack name. *)
Definition Stacks : Type := dict (dict Published).

Definition StackReference_type : string := "pulumi.StackReference".

(** [pulumi.StackReference(name)]: a reference is itself a declared
    resource; it carries the outputs of the stack it names. *)
Definition StackReference (stacks : Stacks) (name : string) : M (URN * dict Published) :=
  u <- declare StackReference_type name None [] [("name", VStr name)] ;;
  ret (u, get_default stacks name []).

(** [ref.require_output(key)]: resolution is deferred; a key the referenced
    stack does not publish makes the resolution raise. *)
Definition require_output (ref : URN * dict Published) (key : string) : Output Value :=
  {| resolved :=
       match dict_get (snd ref) key with
       | Some p => Ok (of_data (published_value p))
       | None => Raise (KeyError key)
       end;
     is_secret :=
       match dict_get (snd ref) key with
       | Some p => published_secret p
       | None => false
       end;
     deps := [fst ref] |}.

(** *** Keyword calls *)

(** The parameters of a Python function called with keywords only. *)
Record Signature := mkSignature {
  callee : string;
  required : list string;
  optional : list string
}.

Definition mem (k : string) (l : list string) : bool := existsb (String.eqb k) l.

(** Binding of a keyword call: a keyword the signature does not declare is
    rejected first, then a required parameter left without value. *)
Definition bind_kwargs {A} (sig : Signature) (kwargs : dict A) : Result unit :=
  match find (fun kv => negb (mem (fst kv) (required sig ++ optional sig)%list)) kwargs with
  | Some kv => Raise (TypeError (UnexpectedKeyword (callee sig) (fst kv)))
  | None =>
      match filter (fun p => negb (mem p (map fst kwargs))) (required sig) with
      | [] => Ok tt
      | missing => Raise (TypeError (MissingRequired (callee sig) missing))
      end
  end.

(** Reading a bound argument at its annotated type. *)
Definition kwarg (kwargs : dict Value) (k : string) : Value := get_default kwargs k VNone.

Definition as_str (v : Value) : Result string :=
  match v with
  | VLit (SStr s) => Ok s
  | _ => Raise (AttributeError "str")
  end.

Definition as_int (v : Value) : Result Z :=
  match v with
  | VLit (SInt z) => Ok z
  | _ => Raise (AttributeError "int")
  end.

(** The truth value of an argument read as a flag. *)
Definition as_bool (v : Value) : Result bool :=
  match v with
  | VLit s => Ok (truthy s)
  | _ => Raise (AttributeError "bool")
  end.

Definition as_scalar (v : Value) : Result Scalar :=
  match v with
  | VLit s => Ok s
  | _ => Raise (AttributeError "scalar")
  end.

Definition as_list (v : Value) : Result (list Value) :=
  match v with
  | VList l => Ok l
  | _ => Raise (TypeError NotIterable)
  end.

Definition as_dict (v : Value) : Result (dict Value) :=
  match v with
  | VDict d => Ok d
  | _ => Raise (TypeError NotAMapping)
  end.

Definition rbind {A B} (r : Result A) (k : A -> Result B) : Result B :=
  match r with
  | Ok a => k a
  | Raise e => Raise e
  end.

Notation "x <-? r ;; k" := (rbind r (fun x => k))
  (at level 61, r at next level, right associativity) : py_scope.

Fixpoint traverse {A B} (f : A -> Result B) (l : list A) : Result (list B) :=
  match l with
  | [] => Ok []
  | a :: rest =>
      match f a with
      | Raise e => Raise e
      | Ok b =>
          match traverse f rest with
          | Raise e => Raise e
          | Ok bs => Ok (b :: bs)
          end
      end
  end.

Definition traverse_dict {A B} (f : A -> Result B) (d : dict A) : Result (dict B) :=
  traverse (fun kv => match f (snd kv) with
                      | Ok b => Ok (fst kv, b)
                      | Raise e => Raise e
                      end) d.

(** An input used through [.apply] must be an output; its value is read as
    a string when it resolves. *)
Definition as_output_str (v : Value) : Result (Output string) :=
  match v with
  | VOut o =>
      Ok {| resolved := match resolved o with
                        | Ok w => as_str w
                        | Raise e => Raise e
                        end;
            is_secret := is_secret o;
            deps := deps o |}
  | _ => Raise (AttributeError "apply")
  end.

(** ** The application component ([modules/app/app.py]) *)

Module App.

Record KubernetesServiceArgs := mkArgs {
  base_tags : dict string;
  app_name : string;
  container_ports : list Z;
  environment_variables : dict Value;
  image : Value;
  kube_issuer : Output string;
  namespace : Output string;
  openid_connector : Value;
  public_load_balancer : Value;
  secrets_data : dict Value;
  service_permissions : list Value;
  replicas : Value;
  hostname_list : list (dict Scalar);
  ingress_port : Z
}.

(** [KubernetesServiceArgs.__init__]: only [ingress_port] has a default. *)
Definition KubernetesServiceArgs_sig : Signature :=
  {| callee := "KubernetesServiceArgs.__init__";
     required := ["base_tags"; "app_name"; "container_ports";
                  "environment_variables"; "image"; "kube_issuer"; "namespace";
                  "openid_connector"; "public_load_balancer"; "secrets_data";
                  "service_permissions"; "replicas"; "hostname_list"];
     optional := ["ingress_port"] |}.

(** The constructor called with keywords: the call is bound first; the
    bound values are then read at the types the parameters are annotated
    with (a value of another type would make the component raise at its
    first use of it; the typed record reports it here). *)
Definition KubernetesServiceArgs_init (kwargs : dict Value) : Result KubernetesServiceArgs :=
  _ <-? bind_kwargs KubernetesServiceArgs_sig kwargs ;;
  tags <-? rbind (as_dict (kwarg kwargs "base_tags")) (traverse_dict as_str) ;;
  app <-? as_str (kwarg kwargs "app_name") ;;
  ports <-? rbind (as_list (kwarg kwargs "container_ports")) (traverse as_int) ;;
  env <-? as_dict (kwarg kwargs "environment_variables") ;;
  issuer <-? as_output_str (kwarg kwargs "kube_issuer") ;;
  ns <-? as_output_str (kwarg kwargs "namespace") ;;
  secrets <-? as_dict (kwarg kwargs "secrets_data") ;;
  perms <-? as_list (kwarg kwargs "service_permissions") ;;
  hosts <-? rbind (as_list (kwarg kwargs "hostname_list"))
              (traverse (fun h => rbind (as_dict h) (traverse_dict as_scalar))) ;;
  port <-? as_int (get_default kwargs "ingress_port" (VInt 80)) ;;
  Ok {| base_tags := tags;
        app_name := app;
        container_ports := ports;
        environment_variables := env;
        image := kwarg kwargs "image";
        kube_issuer := issuer;
        namespace := ns;
        openid_connector := kwarg kwargs "openid_connector";
        public_load_balancer := kwarg kwargs "public_load_balancer";
        secrets_data := secrets;
        service_permissions := perms;
        replicas := kwarg kwargs "replicas";
        hostname_list := hosts;
        ingress_port := port |}.

Section Component.

Variable ext : Externals.
Variable name : string.
Variable args : KubernetesServiceArgs.

Definition component_type : string := "KubernetesService".
Definition self : URN := (component_type, name).

(** The two sides of the trust condition, as the lambdas compute them. *)
Definition condition_variable : Output string :=
  apply (fun ki => PyStr.replace ki "https://" "" ++ ":sub") (kube_issuer args).

Definition condition_value : Output string :=
  apply (fun ns => "system:serviceaccount:" ++ ns ++ ":" ++ name) (namespace args).

Definition trust_condition : Value :=
  VDict [("test", VStr "StringEquals");
         ("variable", out_str condition_variable);
         ("values", VList [out_str condition_value])].

(** The statements of [service_role_assume_policy]. *)
Definition service_role_assume_policy : list Value :=
  [VDict [("effect", VStr "Allow");
          ("principals",
           VList [VDict [("identifiers", VList [openid_connector args]);
                         ("type", VStr "Federated")]]);
          ("actions", VStrs ["sts:AssumeRoleWithWebIdentity"]);
          ("conditions", VList [trust_condition])]].

Definition name_label : Value := VDict [("app.kubernetes.io/name", VStr name)].

Definition labelled_meta : Value :=
  VDict [("labels", name_label);
         ("name", VStr name);
         ("namespace", out_str (namespace args))].

Definition utilization_metric (resource_name : string) : Value :=
  VDict [("type", VStr "Resource");
         ("resource",
          VDict [("name", VStr resource_name);
                 ("target", VDict [("type", VStr "Utilization");
                                   ("average_value", VStr "60")])])].

(** The [spec] of the HorizontalPodAutoscaler. *)
Definition autoscaling_spec : Value :=
  VDict [("scale_target_ref",
          VDict [("api_version", VStr "apps/v1");
                 ("kind", VStr "Deployment");
                 ("name", VStr name)]);
         ("min_replicas", VInt 1);
         ("max_replicas", VInt 6);
         ("metrics", VList [utilization_metric "cpu"; utilization_metric "memory"])].

Definition deployment_spec (sa secrets : Handle) : Value :=
  VDict [("replicas", replicas args);
         ("selector", VDict [("match_labels", name_label)]);
         ("template",
          VDict [("metadata", VDict [("labels", name_label)]);
                 ("spec",
                  VDict [("containers",
                          VList [VDict [("name", VStr (app_name args));
                                        ("env",
                                         VList (map (fun kv =>
                                                       VDict [("name", VStr (fst kv));
                                                              ("value", snd kv)])
                                                    (environment_variables args)));
                                        ("env_from",
                                         VList [VDict [("secret_ref",
                                                        VDict [("name", out_str (attr ext secrets "metadata.name"))])]]);
                                        ("image", image args);
                                        ("image_pull_policy", VStr "Always");
                                        ("ports",
                                         VList (map (fun p =>
                                                       VDict [("name", VStr (PyStr.of_Z p ++ "-tcp"));
                                                              ("container_port", VInt p)])
                                                    (container_ports args)))]]);
                         ("service_account_name", out_str (attr ext sa "metadata.name"))])])].

Definition service_spec : Value :=
  VDict [("ports",
          VList (map (fun p => VDict [("port", VInt p);
                                      ("name", VStr (PyStr.of_Z p ++ "-tcp"))])
                     (container_ports args)));
         ("selector", name_label)].

Definition ingress_spec (hosts : string) : Value :=
  VDict [("entryPoints", VStrs ["web"]);
         ("routes",
          VList [VDict [("kind", VStr "Rule");
                        ("match", VStr ("Host(" ++ hosts ++ ")"));
                        ("priority", VInt 10);
                        ("services",
                         VList [VDict [("kind", VStr "Service");
                                       ("name", VStr name);
                                       ("namespace", out_str (namespace args));
                                       ("passHostHeader", VBool true);
                                       ("port", VInt (ingress_port args));
                                       ("scheme", VStr "http")]])]])].

Definition record_name (nrec : nat) : string := name ++ "-record" ++ PyStr.of_nat nrec.

Definition record_props (rec_name : Scalar) : dict Value :=
  [("zone_id", VStr (get_zone_id ext "cloudlan.net"));
   ("name", VLit rec_name);
   ("type", VStr "CNAME");
   ("ttl", VInt 300);
   ("records", VList [public_load_balancer args])].

(** One turn of the loop over [enumerate(self.hostname_list)]: a dns
    record is created unless [create_record] is false. *)
Definition create_record (entry : nat * dict Scalar) : M unit :=
  if truthy (get_default (snd entry) "create_record" (SBool true))
  then
    rec_name <- lift (getitem (snd entry) "name") ;;
    _ <- declare "aws.route53.Record" (record_name (fst entry)) (Some self) []
           (record_props rec_name) ;;
    ret tt
  else ret tt.

(** The block under [# Ingress]: the route and the DNS records exist only
    when hostnames are given. *)
Definition ingress : M unit :=
  if (0 <? length (hostname_list args))%nat
  then
    names <- lift (traverse (fun h => getitem h "name") (hostname_list args)) ;;
    let hosts := PyStr.join "," (map (fun n => "`" ++ str_of n ++ "`") names) in
    _ <- declare "k8s.apiextensions.CustomResource" (name ++ "-ing") (Some self) []
           [("api_version", VStr "traefik.containo.us/v1alpha1");
            ("kind", VStr "IngressRoute");
            ("metadata", VDict [("name", VStr name);
                                ("namespace", out_str (namespace args))]);
            ("spec", ingress_spec hosts)] ;;
    _ <- mapM create_record (enumerate (hostname_list args)) ;;
    ret tt
  else ret tt.

(** [KubernetesService.__init__] *)
Definition KubernetesService : M unit :=
  _ <- declare component_type name None [] [] ;;
  policy <-
    (if (0 <? length (service_permissions args))%nat
     then
       p <- resource "aws.iam.Policy" (name ++ "-policy") (Some self) []
              [("policy", VStr (get_policy_document_json ext (service_permissions args)));
               ("tags", tags_value (base_tags args))] ;;
       ret (Some p)
     else ret None) ;;
  service_role <-
    resource "aws.iam.Role" (name ++ "-role") (Some self) []
      [("assume_role_policy", VStr (get_policy_document_json ext service_role_assume_policy));
       ("name", VStr (name ++ "-role"));
       ("tags", tags_value (base_tags args))] ;;
  sa <-
    resource "k8s.core.v1.ServiceAccount" (name ++ "-sa") (Some self) []
      [("metadata",
        VDict [("annotations",
                VDict [("eks.amazonaws.com/role-arn", out_str (attr ext service_role "arn"))]);
               ("name", VStr name);
               ("namespace", out_str (namespace args))])] ;;
  _ <-
    (if (0 <? length (service_permissions args))%nat
     then
       match policy with
       | Some p =>
           _ <- declare "aws.iam.RolePolicyAttachment" (name ++ "-roleattach") (Some self) []
                  [("role", out_str (attr ext service_role "name"));
                   ("policy_arn", out_str (attr ext p "arn"))] ;;
           ret tt
       | None => raise (AttributeError "policy")
       end
     else ret tt) ;;
  secrets <-
    resource "k8s.core.v1.Secret" (name ++ "-secrets") (Some self) []
      [("metadata", VDict [("name", VStr name);
                           ("namespace", out_str (namespace args))]);
       ("string_data", VDict (secrets_data args))] ;;
  _ <- declare "k8s.apps.v1.Deployment" (name ++ "-deployment") (Some self) []
         [("metadata", labelled_meta);
          ("spec", deployment_spec sa secrets)] ;;
  _ <- declare "k8s.autoscaling.v2.HorizontalPodAutoscaler" (name ++ "-app-hpa") (Some self) []
         [("metadata", labelled_meta);
          ("spec", autoscaling_spec)] ;;
  _ <- declare "k8s.core.v1.Service" (name ++ "-service") (Some self) []
         [("metadata", labelled_meta);
          ("spec", service_spec)] ;;
  ingress.

End Component.

End App.

(** ** The database component ([modules/db/db.py]) *)

Module Db.

Record RdsDbArgs := mkArgs {
  base_tags : dict string;
  cidr_blocks : Value;
  is_prod_database : bool;
  major_version : Value;
  private_subnets : Value;
  serverless_max_capacity : Value;
  storage_size : Value;
  vpc_id : Value;
  zone_name : string
}.

Definition RdsDbArgs_sig : Signature :=
  {| callee := "RdsDbArgs.__init__";
     required := ["base_tags"; "cidr_blocks"; "major_version"; "private_subnets";
                  "vpc_id"; "zone_name"];
     optional := ["is_prod_database"; "serverless_max_capacity"; "storage_size"] |}.

(** [RdsDbArgs.__init__], with its defaults [is_prod_database = False],
    [serverless_max_capacity = 3] and [storage_size = 20]. *)
Definition RdsDbArgs_init (kwargs : dict Value) : Result RdsDbArgs :=
  _ <-? bind_kwargs RdsDbArgs_sig kwargs ;;
  tags <-? rbind (as_dict (kwarg kwargs "base_tags")) (traverse_dict as_str) ;;
  prod <-? as_bool (get_default kwargs "is_prod_database" (VBool false)) ;;
  zone <-? as_str (kwarg kwargs "zone_name") ;;
  Ok {| base_tags := tags;
        cidr_blocks := kwarg kwargs "cidr_blocks";
        is_prod_database := prod;
        major_version := kwarg kwargs "major_version";
        private_subnets := kwarg kwargs "private_subnets";
        serverless_max_capacity := get_default kwargs "serverless_max_capacity" (VInt 3);
        storage_size := get_default kwargs "storage_size" (VInt 20);
        vpc_id := kwarg kwargs "vpc_id";
        zone_name := zone |}.

(** The attributes of the component the stack program reads afterwards. *)
Record RdsDb := mkRdsDb {
  serverless_db : Handle;
  db_password : Handle
}.

Section Component.

Variable ext : Externals.
Variable name : string.
Variable args : RdsDbArgs.

Definition component_type : string := "RdsDb".
Definition self : URN := (component_type, name).

(** Major version - minor version dictionary *)
Definition db_versions : dict string := [("8.0", "3.06")].

Definition db_parameter_group (v : string) : M Handle :=
  resource "aws.rds.ParameterGroup" (name ++ "-db-mysql-" ++ v) (Some self) []
    [("family", VStr ("aurora-mysql" ++ v));
     ("name", VStr ("mysql" ++ PyStr.replace v "." ""));
     ("tags", tags_value (base_tags args))].

Definition final_snapshot_identifier : Value :=
  if is_prod_database args then VStr (name ++ "-db-cluster") else VNone.

Definition skip_final_snapshot : Value := VBool (negb (is_prod_database args)).

(** The property bag of the [aws.rds.Cluster] declaration. *)
Definition serverless_db_props (db_subnet db_security_group password : Handle) : dict Value :=
  [("apply_immediately", VBool true);
   ("allow_major_version_upgrade", VBool true);
   ("cluster_identifier_prefix", VStr (name ++ "-db-cluster"));
   ("database_name", VStr "demoapp");
   ("db_subnet_group_name", out_str (attr ext db_subnet "name"));
   ("engine", VStr "aurora-mysql");
   ("engine_mode", VStr "provisioned");
   ("engine_version", VStr "8.0.mysql_aurora.3.06.0");
   ("final_snapshot_identifier", final_snapshot_identifier);
   ("master_username", VStr "root");
   ("master_password", out_str (attr ext password "result"));
   ("skip_final_snapshot", skip_final_snapshot);
   ("serverlessv2_scaling_configuration",
    VDict [("min_capacity", VInt 2);
           ("max_capacity", serverless_max_capacity args)]);
   ("vpc_security_group_ids", VList [out_str (attr ext db_security_group "id")]);
   ("storage_encrypted", VBool true);
   ("tags", tags_value (base_tags args))].

Definition proxy_secret_string (password : Handle) : Output string :=
  apply (fun p => json_dumps ext (VDict [("username", VStr "root");
                                         ("password", VStr p)]))
        (attr ext password "result").

Definition proxy_role_assume_policy : string :=
  json_dumps ext
    (VDict [("Version", VStr "2012-10-17");
            ("Statement",
             VList [VDict [("Action", VStr "sts:AssumeRole");
                           ("Effect", VStr "Allow");
                           ("Sid", VStr "RoleAssume");
                           ("Principal", VDict [("Service", VStr "rds.amazonaws.com")])]])]).

Definition proxy_role_inline_policy (db_proxy_secret : Handle) : Output string :=
  apply (fun arn =>
           json_dumps ext
             (VDict [("Version", VStr "2012-10-17");
                     ("Statement",
                      VList [VDict [("Action",
                                     VStrs ["secretsmanager:GetRandomPassword";
                                            "secretsmanager:CreateSecret";
                                            "secretsmanager:ListSecrets";
                                            "secretsmanager:GetSecretValue"]);
                                    ("Effect", VStr "Allow");
                                    ("Resource", VStrs [arn])];
                             VDict [("Action", VStrs ["kms:Decrypt"]);
                                    ("Effect", VStr "Allow");
                                    ("Resource", VStr "*")]])]))
        (attr ext db_proxy_secret "arn").

(** [RdsDb.__init__] *)
Definition RdsDb_init : M RdsDb :=
  _ <- declare component_type name None [] [] ;;
  let zone_id := get_zone_id ext (zone_name args) in
  let latest_cert_id := get_certificate_id ext "rds-ca-rsa2048-g1" in
  _ <- mapM db_parameter_group (map fst db_versions) ;;
  db_subnet <-
    resource "aws.rds.SubnetGroup" (name ++ "-db-subnet") (Some self) []
      [("description", VStr "Mysql db subnet");
       ("subnet_ids", private_subnets args);
       ("tags", tags_value (base_tags args))] ;;
  db_security_group <-
    resource "aws.ec2.SecurityGroup" (name ++ "-db-security-group") (Some self) []
      [("description", VStr "main db access");
       ("ingress", VList [VDict [("cidr_blocks", cidr_blocks args);
                                 ("protocol", VStr "tcp");
                                 ("from_port", VInt 3306);
                                 ("to_port", VInt 3306)]]);
       ("egress", VList [VDict [("protocol", VStr "-1");
                                ("from_port", VInt 0);
                                ("to_port", VInt 0);
                                ("cidr_blocks", VStrs ["0.0.0.0/0"])]]);
       ("vpc_id", vpc_id args);
       ("tags", tags_value (base_tags args))] ;;
  password <-
    resource "random.RandomPassword" (name ++ "-db-mysql-password") (Some self) ["result"]
      [("length", VInt 32);
       ("special", VBool false)] ;;
  cluster <-
    resource "aws.rds.Cluster" (name ++ "-db-cluster") (Some self) []
      (serverless_db_props db_subnet db_security_group password) ;;
  _ <- declare "aws.rds.ClusterInstance" (name ++ "-db-instance") (Some self) []
         [("apply_immediately", VBool true);
          ("ca_cert_identifier", VStr latest_cert_id);
          ("cluster_identifier", out_str (attr ext cluster "id"));
          ("instance_class", VStr "db.serverless");
          ("engine", out_str (attr ext cluster "engine"));
          ("engine_version", out_str (attr ext cluster "engine_version"));
          ("tags", tags_value (base_tags args))] ;;
  db_proxy_secret <-
    resource "aws.secretsmanager.Secret" (name ++ "-db-proxy-secret") (Some self) []
      [("description", VStr "Secret for the RDS proxy");
       ("tags", tags_value (base_tags args))] ;;
  _ <- declare "aws.secretsmanager.SecretVersion" (name ++ "-db-proxy-secret") (Some self) []
         [("secret_id", out_str (attr ext db_proxy_secret "id"));
          ("secret_string", out_str (proxy_secret_string password))] ;;
  db_proxy_role <-
    resource "aws.iam.Role" (name ++ "-db-proxy-role") (Some self) []
      [("name", VStr (name ++ "-db-proxy-role"));
       ("assume_role_policy", VStr proxy_role_assume_policy);
       ("inline_policies",
        VList [VDict [("name", VStr "SecretManagerAccess");
                      ("policy", out_str (proxy_role_inline_policy db_proxy_secret))]])] ;;
  db_proxy <-
    resource "aws.rds.Proxy" (name ++ "-db-proxy") (Some self) []
      [("name", VStr (name ++ "-db-proxy"));
       ("debug_logging", VBool true);
       ("engine_family", VStr "MYSQL");
       ("idle_client_timeout", VInt 1800);
       ("require_tls", VBool false);
       ("role_arn", out_str (attr ext db_proxy_role "arn"));
       ("vpc_security_group_ids", VList [out_str (attr ext db_security_group "id")]);
       ("vpc_subnet_ids", private_subnets args);
       ("auths", VList [VDict [("auth_scheme", VStr "SECRETS");
                               ("description", VStr "db-creds");
                               ("iam_auth", VStr "DISABLED");
                               ("secret_arn", out_str (attr ext db_proxy_secret "arn"))]]);
       ("tags", tags_value (base_tags args))] ;;
  db_proxy_default_target <-
    resource "aws.rds.ProxyDefaultTargetGroup" (name ++ "-db-proxy-default-target-group")
      (Some self) []
      [("db_proxy_name", out_str (attr ext db_proxy "name"));
       ("connection_pool_config",
        VDict [("connection_borrow_timeout", VInt 120);
               ("max_connections_percent", VInt 100);
               ("max_idle_connections_percent", VInt 50);
               ("session_pinning_filters", VStrs ["EXCLUDE_VARIABLE_SETS"])])] ;;
  _ <- declare "aws.rds.ProxyTarget" (name ++ "-db-proxy-target-group") (Some self) []
         [("db_proxy_name", out_str (attr ext db_proxy "name"));
          ("db_cluster_identifier", out_str (attr ext cluster "cluster_identifier"));
          ("target_group_name", out_str (attr ext db_proxy_default_target "name"))] ;;
  db_proxy_endpoint <-
    resource "aws.rds.ProxyEndpoint" (name ++ "-db-proxy-endpoint") (Some self) []
      [("db_proxy_endpoint_name", VStr (name ++ "-db-proxy-endpoint"));
       ("db_proxy_name", out_str (attr ext db_proxy "name"));
       ("vpc_subnet_ids", private_subnets args);
       ("vpc_security_group_ids", VList [out_str (attr ext db_security_group "id")]);
       ("target_role", VStr "READ_WRITE");
       ("tags", tags_value (base_tags args))] ;;
  _ <- declare "aws.route53.Record" (name ++ "-db-record") (Some self) []
         [("zone_id", VStr zone_id);
          ("name", VStr "db");
          ("type", VStr "CNAME");
          ("ttl", VInt 300);
          ("records", VList [out_str (attr ext cluster "endpoint")])] ;;
  _ <- declare "aws.route53.Record" (name ++ "-db-proxy-record") (Some self) []
         [("zone_id", VStr zone_id);
          ("name", VStr "db-proxy");
          ("type", VStr "CNAME");
          ("ttl", VInt 300);
          ("records", VList [out_str (attr ext db_proxy_endpoint "endpoint")])] ;;
  ret {| serverless_db := cluster; db_password := password |}.

End Component.

End Db.

(** ** The cluster-services component ([modules/svcs/services.py]) *)

Module Svcs.

Record ServicesArgs := mkArgs {
  base_tags : dict string;
  ebs_csi_chart_version : Value;
  kube_users : list string;
  public_alb : Value;
  traefik_chart_version : Value;
  vpc_id : Value;
  worker_role_arn : Output string
}.

(** The list [get_node_roles] serialises: the worker role, then the
    literal entry of the source. *)
Definition node_cluster_map_roles (worker_role : string) : list Value :=
  [VDict [("rolearn", VStr worker_role);
          ("username", VStr "system:node:{{EC2PrivateDNSName}}");
          ("groups", VStrs ["system:bootstrappers"; "system:nodes"])];
   VDict [("rolearn", VStr "arn:aws:iam::389169665533:role/ci-role");
          ("username", VStr "ci-user");
          ("groups", VStrs ["system:masters"])]].

Section Component.

Variable ext : Externals.
Variable name : string.
Variable args : ServicesArgs.

Definition component_type : string := "ServicesResources".
Definition self : URN := (component_type, name).

(** [ServicesResources.get_node_roles] *)
Definition get_node_roles (worker_role : string) : string :=
  yaml_dump ext (VList (node_cluster_map_roles worker_role)).

Definition node_cluster_map_users : list Value :=
  map (fun user =>
         VDict [("userarn", VStr user);
                ("username", VStr (last (PyStr.split user "/") ""));
                ("groups", VStrs ["system:masters"])])
      (kube_users args).

(** The [data] of the [aws-auth] ConfigMap. *)
Definition cluster_auth_data : dict Value :=
  [("mapRoles", out_str (apply get_node_roles (worker_role_arn args)));
   ("mapUsers", VStr (yaml_dump ext (VList node_cluster_map_users)))].

Definition traefik_values : Value :=
  VDict [("ingressClass", VDict [("enabled", VBool true);
                                 ("isDefaultClass", VBool false)]);
         ("ingressRoute", VDict [("dashboard", VDict [("enabled", VBool false)])]);
         ("ports",
          VDict [("traefik", VDict [("expose", VBool true);
                                    ("exposedPort", VInt 9000);
                                    ("nodePort", VInt 30900)]);
                 ("web", VDict [("expose", VBool true);
                                ("nodePort", VInt 32080)])]);
         ("service", VDict [("type", VStr "NodePort")])].

Definition lifecycle_policy : string :=
  json_dumps ext
    (VDict [("rules",
             VList [VDict [("rulePriority", VInt 1);
                           ("description", VStr "Expire images count more than 30");
                           ("selection",
                            VDict [("tagStatus", VStr "any");
                                   ("countType", VStr "imageCountMoreThan");
                                   ("countNumber", VInt 30)]);
                           ("action", VDict [("type", VStr "expire")])]])]).

(** [ServicesResources.__init__].  The caller-identity look-up it starts
    with feeds no resource, and the class's [create_records] method is
    never called; neither is part of the declared resources. *)
Definition ServicesResources : M unit :=
  _ <- declare component_type name None [] [] ;;
  _ <- declare "k8s.core.v1.ConfigMap" (name ++ "-kauth") (Some self) []
         [("metadata", VDict [("name", VStr "aws-auth");
                              ("namespace", VStr "kube-system")]);
          ("data", VDict cluster_auth_data)] ;;
  _ <- declare "k8s.yaml.ConfigFile" (name ++ "-metric-server") (Some self) []
         [("file", VStr "metric_server.yaml")] ;;
  _ <- declare "k8s.helm.v3.Release" (name ++ "-ebs-csi") (Some self) []
         [("chart", VStr "aws-ebs-csi-driver");
          ("namespace", VStr "kube-system");
          ("repository_opts",
           VDict [("repo", VStr "https://kubernetes-sigs.github.io/aws-ebs-csi-driver")]);
          ("version", ebs_csi_chart_version args);
          ("values", VDict [])] ;;
  traefik_ns <-
    resource "k8s.core.v1.Namespace" (name ++ "-traefik-ns") (Some self) []
      [("metadata", VDict [("name", VStr "traefik")])] ;;
  _ <- declare "k8s.helm.v3.Release" (name ++ "-traefik") (Some self) []
         [("chart", VStr "traefik");
          ("namespace", out_str (attr ext traefik_ns "metadata.name"));
          ("repository_opts", VDict [("repo", VStr "https://traefik.github.io/charts/")]);
          ("version", traefik_chart_version args);
          ("values", traefik_values)] ;;
  ecr_repo <-
    resource "aws.ecr.Repository" (name ++ "-ecr-repository") (Some self) []
      [("name", VStr "demoapp")] ;;
  _ <- declare "aws.ecr.LifecyclePolicy" (name ++ "-lifecycle-policy") (Some (urn ecr_repo)) []
         [("repository", out_str (attr ext ecr_repo "name"));
          ("policy", VStr lifecycle_policy)] ;;
  ret tt.

End Component.

End Svcs.

(** ** The network component

    The module of this component ([modules/vpc/vpc.py], with [Vpc],
    [VpcArgs] and [enableFlowLoggingToCloudWatchLogs]) is not among the
    sources; only its caller, the network stack program, is.  Everything in
    this module is therefore modelled from section 4.1 of the spec. *)

Module Network.






(** Modelled from the spec: the inputs of the network component, as the
    stack program passes them (base block, zone identifiers, flag for the
    storage-service endpoint). *)
Record VpcArgs := mkArgs {
  description : string;
  base_tags : dict string;
  base_cidr : string;
  availability_zone_names : list string;
  create_s3_endpoint : bool
}.


Section Component.

Variable ext : Externals.
Variable name : string.
Variable args : VpcArgs.

Definition component_type : string := "Vpc".
Definition self : URN := (component_type, name).






End Component.

End Network.

(** ** The stack programs ([<stack>/__main__.py]) *)

Module Stack.


Section Programs.

Variable ext : Externals.
(** [pulumi.get_stack()], [pulumi.Config()] and the stacks a reference
    can name. *)
Variable envName : string.
Variable config : Config.
Variable stacks : Stacks.

Definition BASE_TAGS : dict string := [("Environment", envName)].

(** *** [vpc/__main__.py] *)



(** *** [db/__main__.py] *)

(** The keyword arguments of the [RdsDbArgs] call, in call order. *)
Definition db_kwargs (major_version : Value) (vpc_stack : URN * dict Published) : dict Value :=
  [("base_tags", tags_value BASE_TAGS);
   ("cidr_blocks", config_get_object config "cidr_blocks");
   ("major_version", major_version);
   ("private_subnets", VOut (require_output vpc_stack "private_subnet_ids"));
   ("storage_size", config_get config "db_storage_size");
   ("vpc_id", VOut (require_output vpc_stack "vpc_id"));
   ("zone_name", VStr "cloudlan.net")].

Definition db_main : M unit :=
  vpc_stack <- StackReference stacks "organization/vpc/vpc-demo" ;;
  k8s_stack <- StackReference stacks "organization/eks/eks-demo" ;;
  major_version <- lift (config_require config "db_major_version") ;;
  args <- lift (Db.RdsDbArgs_init (db_kwargs major_version vpc_stack)) ;;
  db <- Db.RdsDb_init ext (envName ++ "-db") args ;;
  _ <- export "db_admin_username" (out_str (attr ext (Db.serverless_db db) "master_username")) ;;
  export "db_admin_password" (out_str (attr ext (Db.db_password db) "result")).

(** *** [app/__main__.py] *)

Definition default_secrets (db_stack : URN * dict Published) : dict Value :=
  [("DB_USERNAME", VOut (require_output db_stack "db_admin_username"));
   ("DB_PASSWORD", VOut (require_output db_stack "db_admin_password"))].

(** The keyword arguments of the [KubernetesServiceArgs] call, in call
    order. *)
Definition app_kwargs (image max_replicas min_replicas : Value) (ns : Handle)
    (k8s_stack : URN * dict Published) (secrets_data : dict Value) : dict Value :=
  [("base_tags", tags_value BASE_TAGS);
   ("app_name", VStr "demoapp");
   ("container_ports", VList [VInt 3000]);
   ("environment_variables", config_get_object config "app_environment_variables");
   ("hostname_list", config_get_object config "app_hostnames");
   ("image", image);
   ("ingress_port", VInt 3000);
   ("kube_issuer", VOut (require_output k8s_stack "cluster_issuer"));
   ("max_replicas", max_replicas);
   ("min_replicas", min_replicas);
   ("namespace", out_str (attr ext ns "metadata.name"));
   ("openid_connector", VOut (require_output k8s_stack "cluster_openid_connector"));
   ("public_load_balancer", VOut (require_output k8s_stack "cluster_public_load_balancer"));
   ("secrets_data", VDict secrets_data);
   ("service_permissions", VList [])].

Definition app_main : M unit :=
  k8s_stack <- StackReference stacks "organization/eks/eks-demo" ;;
  db_stack <- StackReference stacks "organization/db/db-demo" ;;
  ns <-
    resource "k8s.core.v1.Namespace" (envName ++ "-ns") None []
      [("metadata", VDict [("name", VStr "demoapp")])] ;;
  image <- lift (config_require config "app_image") ;;
  max_replicas <- lift (config_get_int config "app_max_replicas") ;;
  min_replicas <- lift (config_get_int config "app_min_replicas") ;;
  (* unpacking [**config.get_object('app_secrets')] needs a mapping *)
  app_secrets <- lift (as_dict (config_get_object config "app_secrets")) ;;
  let secrets_data := dict_merge (default_secrets db_stack) app_secrets in
  args <- lift (App.KubernetesServiceArgs_init
                  (app_kwargs image max_replicas min_replicas ns k8s_stack secrets_data)) ;;
  App.KubernetesService ext (envName ++ "-app") args.

End Programs.

End Stack.

(** ** Views of a program state used in the statements *)

(** [v[k]] on a dictionary value. *)
Definition vget (v : Value) (k : string) : option Value :=
  match v with
  | VDict d => dict_get d k
  | _ => None
  end.

(** The computation only appends resources satisfying [P] and leaves the
    exports alone, whatever its outcome. *)
Definition extends (P : Resource -> Prop) {A} (c : M A) : Prop :=
  forall st, exists extra,
    resources (snd (c st)) = (resources st ++ extra)%list /\
    exports (snd (c st)) = exports st /\
    Forall P extra.

Definition ingress_resource (r : Resource) : Prop :=
  rtype r = "k8s.apiextensions.CustomResource" \/ rtype r = "aws.route53.Record".

Definition has_name (h : dict Scalar) : Prop := dict_get h "name" <> None.

(** The DNS records the loop of the application component declares for a
    list of numbered entries. *)
Definition expected_records (ext : Externals) (name : string)
    (args : App.KubernetesServiceArgs) (entries : list (nat * dict Scalar)) : list Resource :=
  flat_map (fun e =>
              if truthy (get_default (snd e) "create_record" (SBool true))
              then match dict_get (snd e) "name" with
                   | Some n =>
                       [mkResource "aws.route53.Record" (App.record_name name (fst e))
                          (Some (App.self name)) [] (App.record_props ext args n)]
                   | None => []
                   end
              else [])
           entries.

(** A DNS record exists for entry [i] of the hostname list. *)
Definition created_for (st : State) (name : string) (i : nat) (h : dict Scalar) : Prop :=
  exists r, In r (resources st) /\
            rtype r = "aws.route53.Record" /\
            rname r = App.record_name name i /\
            dict_get (rprops r) "name" = option_map VLit (dict_get h "name").

(** Where a value computed from resource [u] ends up. *)
Definition mentions (u : URN) (v : Value) : bool :=
  existsb (fun o => existsb (urn_eqb u) (deps o)) (outputs_of v).

Definition secret_where_mentioned (u : URN) (v : Value) : bool :=
  forallb (fun o => implb (existsb (urn_eqb u) (deps o)) (is_secret o)) (outputs_of v).

(** The resource fields, by resource class and property, that receive a
    value computed from [u]. *)
Definition routes (u : URN) (st : State) : list (string * string) :=
  flat_map (fun r =>
              flat_map (fun kv => if mentions u (snd kv) then [(rtype r, fst kv)] else [])
                       (rprops r))
           (resources st).

(** The stack outputs that export a value computed from [u]. *)
Definition exported_under (u : URN) (st : State) : list string :=
  flat_map (fun kv => if mentions u (snd kv) then [fst kv] else []) (exports st).

(** Every output computed from [u], in a resource field or an export, is
    marked secret. *)
Definition kept_secret (u : URN) (st : State) : bool :=
  forallb (fun r => forallb (fun kv => secret_where_mentioned u (snd kv)) (rprops r))
          (resources st)
  && forallb (fun kv => secret_where_mentioned u (snd kv)) (exports st).

Definition db_password_urn (name : string) : URN :=
  ("random.RandomPassword", name ++ "-db-mysql-password").

(** The arguments of a database component were computed before the
    component declares its resources: none of them depends on [u]. *)
Definition independent_of (u : URN) (args : Db.RdsDbArgs) : Prop :=
  mentions u (Db.cidr_blocks args) = false /\
  mentions u (Db.private_subnets args) = false /\
  mentions u (Db.vpc_id args) = false /\
  mentions u (Db.serverless_max_capacity args) = false.



Definition autoscaler_type : string := "k8s.autoscaling.v2.HorizontalPodAutoscaler".

(** ** Concrete inputs *)

Module Sample.

Definition ext : Externals :=
  {| attribute := fun u a => snd u ++ "." ++ a;
     get_zone_id := fun zone => "zone-of-" ++ zone;
     get_certificate_id := fun id => id;
     get_availability_zone_names := ["eu-west-1a"; "eu-west-1b"; "eu-west-1c"];
     get_policy_document_json := fun _ => "{policy}";
     json_dumps := fun _ => "{json}";
     yaml_dump := fun _ => "yaml" |}.

Definition public (d : Data) : Published :=
  {| published_secret := false; published_value := d |}.
Definition secret (d : Data) : Published :=
  {| published_secret := true; published_value := d |}.

Definition stacks : Stacks :=
  [("organization/vpc/vpc-demo",
    [("vpc_id", public (DStr "vpc-1"));
     ("private_subnet_ids", public (DList [DStr "subnet-a"; DStr "subnet-b"]))]);
   ("organization/eks/eks-demo",
    [("cluster_issuer", public (DStr "https://x.eks.amazonaws.com/id/ABC"));
     ("cluster_openid_connector", public (DStr "arn:aws:iam::1:oidc-provider/x"));
     ("cluster_public_load_balancer", public (DStr "lb.example.net"))]);
   ("organization/db/db-demo",
    [("db_admin_username", public (DStr "root"));
     ("db_admin_password", secret (DStr "hunter2hunter2"))])].

(** An application stack configured with replica bounds 2 and 4. *)
Definition app_config : Config :=
  [("app_image", DStr "registry.example.net/demoapp:1");
   ("app_min_replicas", DInt 2);
   ("app_max_replicas", DInt 4);
   ("app_environment_variables", DDict [("PORT", DStr "3000")]);
   ("app_hostnames", DList [DDict [("name", DStr "demoapp.cloudlan.net")]]);
   ("app_secrets", DDict [])].

(** A database stack configured without [cidr_blocks] and
    [db_storage_size]. *)
Definition db_config : Config := [("db_major_version", DStr "8.0")].


Definition known (s : string) : Output string :=
  {| resolved := Ok s; is_secret := false; deps := [] |}.

(** The application component as the spec's example has it: issuer
    [https://x.eks.amazonaws.com/id/ABC], namespace [demoapp]; one
    hostname with the flag unset, one with the flag false. *)
Definition app_args : App.KubernetesServiceArgs :=
  {| App.base_tags := [("Environment", "demoapp")];
     App.app_name := "demoapp";
     App.container_ports := [3000%Z];
     App.environment_variables := [("PORT", VStr "3000")];
     App.image := VStr "registry.example.net/demoapp:1";
     App.kube_issuer := known "https://x.eks.amazonaws.com/id/ABC";
     App.namespace := known "demoapp";
     App.openid_connector := VStr "arn:aws:iam::1:oidc-provider/x";
     App.public_load_balancer := VStr "lb.example.net";
     App.secrets_data := [];
     App.service_permissions := [];
     App.replicas := VInt 3;
     App.hostname_list :=
       [[("name", SStr "demoapp.cloudlan.net")];
        [("name", SStr "internal.cloudlan.net"); ("create_record", SBool false)]];
     App.ingress_port := 3000%Z |}.

Definition db_args (prod : bool) : Db.RdsDbArgs :=
  {| Db.base_tags := [("Environment", "demo")];
     Db.cidr_blocks := VStrs ["10.0.0.0/16"];
     Db.is_prod_database := prod;
     Db.major_version := VStr "8.0";
     Db.private_subnets := VStrs ["subnet-a"; "subnet-b"];
     Db.serverless_max_capacity := VInt 3;
     Db.storage_size := VInt 20;
     Db.vpc_id := VStr "vpc-1";
     Db.zone_name := "cloudlan.net" |}.

Definition svcs_args : Svcs.ServicesArgs :=
  {| Svcs.base_tags := [("Environment", "demo")];
     Svcs.ebs_csi_chart_version := VStr "2.17.1";
     Svcs.kube_users := ["arn:aws:iam::1:user/alice"];
     Svcs.public_alb := VStr "lb.example.net";
     Svcs.traefik_chart_version := VStr "v23.2.0";
     Svcs.vpc_id := VStr "vpc-1";
     Svcs.worker_role_arn := known "arn:aws:iam::1:role/worker" |}.

End Sample.

(** ** Further views of declared resources *)

Definition has_type (ty : string) (r : Resource) : bool := String.eqb (rtype r) ty.

(** The declared resources of one class, in declaration order. *)
Definition of_type (ty : string) (st : State) : list Resource :=
  filter (has_type ty) (resources st).

(** The arguments of an application component with another hostname list. *)
Definition with_hostnames (args : App.KubernetesServiceArgs) (hosts : list (dict Scalar))
    : App.KubernetesServiceArgs :=
  {| App.base_tags := App.base_tags args;
     App.app_name := App.app_name args;
     App.container_ports := App.container_ports args;
     App.environment_variables := App.environment_variables args;
     App.image := App.image args;
     App.kube_issuer := App.kube_issuer args;
     App.namespace := App.namespace args;
     App.openid_connector := App.openid_connector args;
     App.public_load_balancer := App.public_load_balancer args;
     App.secrets_data := App.secrets_data args;
     App.service_permissions := App.service_permissions args;
     App.replicas := App.replicas args;
     App.hostname_list := hosts;
     App.ingress_port := App.ingress_port args |}.

Definition without_hostnames (args : App.KubernetesServiceArgs) : App.KubernetesServiceArgs :=
  with_hostnames args [].

(** What the application component declares before its ingress block. *)
Definition app_core (ext : Externals) (name : string) (args : App.KubernetesServiceArgs)
    : list Resource :=
  resources (snd (run (App.KubernetesService ext name (without_hostnames args)))).

(** A resource is the component [u] itself or one of its children. *)
Definition owned_by (u : URN) (r : Resource) : Prop :=
  (urn_of r = u /\ rparent r = None) \/ rparent r = Some u.

(** [rec.get('create_record', True)] as a truth value. *)
Definition wants_record (h : dict Scalar) : bool :=
  truthy (get_default h "create_record" (SBool true)).

(** The name and number of each entry of a list of port declarations. *)
Definition named_ports (number_key : string) (ports : Value) : list (option Value * option Value) :=
  match ports with
  | VList l => map (fun p => (vget p "name", vget p number_key)) l
  | _ => []
  end.

(** [v[k1][k2]...] on nested dictionaries. *)
Fixpoint vpath (v : Value) (keys : list string) : option Value :=
  match keys with
  | [] => Some v
  | k :: rest =>
      match vget v k with
      | Some w => vpath w rest
      | None => None
      end
  end.

(** The first element of a list value. *)
Definition vhead (v : Value) : option Value :=
  match v with
  | VList (x :: _) => Some x
  | _ => None
  end.

(** The ingress route the application component declares for the names of
    its hostname entries. *)
Definition ingress_route (name : string) (args : App.KubernetesServiceArgs)
    (names : list Scalar) : Resource :=
  mkResource "k8s.apiextensions.CustomResource" (name ++ "-ing") (Some (App.self name)) []
    [("api_version", VStr "traefik.containo.us/v1alpha1");
     ("kind", VStr "IngressRoute");
     ("metadata", VDict [("name", VStr name);
                         ("namespace", out_str (App.namespace args))]);
     ("spec", App.ingress_spec name args
                (PyStr.join "," (map (fun n => "`" ++ str_of n ++ "`") names)))].

(** ** More of Python's strings and outputs *)

Module PyMore.

(** [s[n:]] *)
Fixpoint drop (n : nat) (s : string) : string :=
  match n, s with
  | O, _ => s
  | S k, String _ rest => drop k rest
  | S _, EmptyString => EmptyString
  end.

(** [maxsplit] counts the separators still to be honoured, [skip] the
    characters of a matched separator still to be dropped. *)
Fixpoint split_max_from (sep : string) (maxsplit skip : nat) (cur s : string) : list string :=
  match s with
  | EmptyString => [cur]
  | String c rest =>
      match skip with
      | S k => split_max_from sep maxsplit k cur rest
      | O =>
          match maxsplit with
          | O => split_max_from sep 0 0 (cur ++ String c EmptyString) rest
          | S m =>
              if prefix sep s
              then cur :: split_max_from sep m (String.length sep - 1) EmptyString rest
              else split_max_from sep maxsplit 0 (cur ++ String c EmptyString) rest
          end
      end
  end.

(** [s.split(sep, maxsplit)] for a non-empty separator. *)
Definition split_max (s sep : string) (maxsplit : nat) : list string :=
  split_max_from sep maxsplit 0 EmptyString s.

(** [o.apply(f)] for a callback that can raise. *)
Definition apply_raising {A B} (f : A -> Result B) (o : Output A) : Output B :=
  {| resolved := match resolved o with Ok a => f a | Raise e => Raise e end;
     is_secret := is_secret o;
     deps := deps o |}.

(** [pulumi.Output.all(...)]: resolves to the list of the resolved values;
    secret where any is, computed from all their resources. *)
Definition all {A} (outputs : list (Output A)) : Output (list A) :=
  {| resolved := traverse resolved outputs;
     is_secret := existsb is_secret outputs;
     deps := flat_map deps outputs |}.

(** [Output.from_input(v)] for a plain value. *)
Definition from_input {A} (a : A) : Output A :=
  {| resolved := Ok a; is_secret := false; deps := [] |}.

Definition newline : string := String (ascii_of_nat 10) EmptyString.

End PyMore.

(** ** The cluster-services stack and the method the component leaves unused *)

Module SvcsStack.

(** [ServicesArgs.__init__]: [traefik_chart_version] defaults to [v23.2.0]. *)
Definition ServicesArgs_sig : Signature :=
  {| callee := "ServicesArgs.__init__";
     required := ["base_tags"; "ebs_csi_chart_version"; "kube_users"; "public_alb";
                  "vpc_id"; "worker_role_arn"];
     optional := ["traefik_chart_version"] |}.

Definition ServicesArgs_init (kwargs : dict Value) : Result Svcs.ServicesArgs :=
  _ <-? bind_kwargs ServicesArgs_sig kwargs ;;
  tags <-? rbind (as_dict (kwarg kwargs "base_tags")) (traverse_dict as_str) ;;
  users <-? rbind (as_list (kwarg kwargs "kube_users")) (traverse as_str) ;;
  worker <-? as_output_str (kwarg kwargs "worker_role_arn") ;;
  Ok {| Svcs.base_tags := tags;
        Svcs.ebs_csi_chart_version := kwarg kwargs "ebs_csi_chart_version";
        Svcs.kube_users := users;
        Svcs.public_alb := kwarg kwargs "public_alb";
        Svcs.traefik_chart_version := get_default kwargs "traefik_chart_version" (VStr "v23.2.0");
        Svcs.vpc_id := kwarg kwargs "vpc_id";
        Svcs.worker_role_arn := worker |}.

Section Programs.

Variable ext : Externals.
Variable envName : string.
Variable config : Config.
Variable stacks : Stacks.

(** The keyword arguments of the [ServicesArgs] call of
    [services/__main__.py], in call order. *)
Definition svcs_kwargs (chart_version : Value) (vpc_stack k8s_stack : URN * dict Published)
    : dict Value :=
  [("base_tags", tags_value (Stack.BASE_TAGS envName));
   ("ebs_csi_chart_version", chart_version);
   ("kube_users", config_get_object config "kube_users");
   ("public_alb", VOut (require_output k8s_stack "cluster_public_load_balancer"));
   ("private_subnets", VOut (require_output vpc_stack "private_subnet_ids"));
   ("worker_role_arn", VOut (require_output k8s_stack "cluster_worker_role"));
   ("vpc_id", VOut (require_output vpc_stack "vpc_id"))].

(** [services/__main__.py] *)
Definition svcs_main : M unit :=
  vpc_stack <- StackReference stacks "organization/vpc/vpc-demo" ;;
  k8s_stack <- StackReference stacks "organization/eks/eks-demo" ;;
  chart_version <- lift (config_require config "eks_ebs_csi_chart_version") ;;
  args <- lift (ServicesArgs_init (svcs_kwargs chart_version vpc_stack k8s_stack)) ;;
  Svcs.ServicesResources ext (envName ++ "-svcs") args.

End Programs.

Section Methods.

Variable ext : Externals.
Variable name : string.
Variable args : Svcs.ServicesArgs.

(** [ServicesResources.create_records]: the flag it reads is
    [create_records]; [h.get('name')] must be a string for [.split]. *)
Definition create_records (h : dict Scalar) : M unit :=
  if truthy (get_default h "create_records" (SBool true))
  then
    match get_default h "name" SNone with
    | SStr host =>
        let nice_name := hd EmptyString (PyStr.split host ".") in
        let zone_name := "cloudlan.net" in
        _ <- declare "aws.route53.Record" (name ++ "-" ++ nice_name ++ "-record")
               (Some (Svcs.self name)) []
               [("name", VStr (PyStr.replace host ("." ++ zone_name) ""));
                ("records", VList [Svcs.public_alb args]);
                ("ttl", VInt 300);
                ("type", VStr "CNAME");
                ("zone_id", VStr (get_zone_id ext zone_name))] ;;
        ret tt
    | _ => raise (AttributeError "split")
    end
  else ret tt.

End Methods.

End SvcsStack.

(** ** The cluster authorization component ([modules/eks/auth.py]) *)

Module Auth.

Record KAuthArgs := mkArgs {
  admin_users : list string;
  worker_role_arn : Output string
}.

(** [KAuth.get_node_role] *)
Definition get_node_role (r : string) : list Value :=
  [VDict [("rolearn", VStr r);
          ("username", VStr "system:node:{{EC2PrivateDNSName}}");
          ("groups", VStrs ["system:bootstrappers"; "system:nodes"])]].

Section Component.

Variable ext : Externals.
Variable name : string.
Variable args : KAuthArgs.

Definition component_type : string := "Kauth".
Definition self : URN := (component_type, name).

(** Create admin users dictionary *)
Definition admin_users_entries : list Value :=
  map (fun u =>
         VDict [("userarn", VStr u);
                ("username", VStr (last (PyStr.split u "/") ""));
                ("groups", VStrs ["system:masters"])])
      (admin_users args).

Definition cm_auth_data : dict Value :=
  [("mapRoles",
    out_str (apply (fun r => yaml_dump ext (VList (get_node_role r))) (worker_role_arn args)));
   ("mapUsers", VStr (yaml_dump ext (VList admin_users_entries)))].

(** [KAuth.__init__] *)
Definition KAuth : M unit :=
  _ <- declare component_type name None [] [] ;;
  _ <- declare "k8s.core.v1.ConfigMap" (name ++ "-auth-cm") (Some self) []
         [("metadata", VDict [("name", VStr "aws-auth");
                              ("namespace", VStr "kube-system")]);
          ("data", VDict cm_auth_data)] ;;
  ret tt.

End Component.

End Auth.

(** ** The certificate component ([modules/certs/certificates.py]) *)

Module Certs.

Record CertArgs := mkArgs {
  alt_names : option (list Value);
  base_tags : dict string;
  domain_name : Value;
  zone_name : string
}.

(** One entry of the certificate's [domain_validation_options], as the
    provider resolves it. *)
Record ValidationOption := mkOption {
  resource_record_name : string;
  resource_record_type : string;
  resource_record_value : string
}.

Record Certs := mkCerts {
  cert : Handle
}.

Definition CertArgs_sig : Signature :=
  {| callee := "CertArgs.__init__";
     required := ["alt_names"; "base_tags"; "domain_name"];
     optional := ["zone_name"] |}.

(** [CertArgs.__init__]: [zone_name] defaults to [cloudlan.net]. *)
Definition CertArgs_init (kwargs : dict Value) : Result CertArgs :=
  _ <-? bind_kwargs CertArgs_sig kwargs ;;
  names <-? match kwarg kwargs "alt_names" with
            | VLit SNone => Ok None
            | v => l <-? as_list v ;; Ok (Some l)
            end ;;
  tags <-? rbind (as_dict (kwarg kwargs "base_tags")) (traverse_dict as_str) ;;
  zone <-? as_str (get_default kwargs "zone_name" (VStr "cloudlan.net")) ;;
  Ok {| alt_names := names;
        base_tags := tags;
        domain_name := kwarg kwargs "domain_name";
        zone_name := zone |}.

Section Component.

Variable ext : Externals.
Variable name : string.
Variable args : CertArgs.

Definition component_type : string := "Certs".
Definition self : URN := (component_type, name).

(** [args.alt_names or []] *)
Definition alt_names_or_empty : list Value :=
  match alt_names args with
  | Some (x :: l) => x :: l
  | Some [] => []
  | None => []
  end.

(** [Certs.__init__] up to the deferred callback: the component and its
    certificate. *)
Definition Certs_init : M Certs :=
  _ <- declare component_type name None [] [] ;;
  certificate <-
    resource "aws.acm.Certificate" (name ++ "-certificate") (Some self) []
      [("domain_name", domain_name args);
       ("subject_alternative_names", VList alt_names_or_empty);
       ("tags", tags_value (base_tags args));
       ("validation_method", VStr "DNS")] ;;
  ret {| cert := certificate |}.

(** One turn of the loop of [iterate_records]. *)
Definition dvo_record (certificate : Handle) (entry : nat * ValidationOption)
    : M (list Handle) :=
  let (num, f) := entry in
  if PyStr.contains (zone_name args) (resource_record_name f)
  then
    r <- resource "aws.route53.Record" (name ++ "-dvo-records-" ++ PyStr.of_nat num)
           (Some (urn certificate)) []
           [("allow_overwrite", VBool true);
            ("name", VStr (PyStr.replace (resource_record_name f)
                             ("." ++ zone_name args ++ ".") ""));
            ("ttl", VInt 300);
            ("type", VStr (resource_record_type f));
            ("records", VStrs [resource_record_value f]);
            ("zone_id", VStr (get_zone_id ext (zone_name args)))] ;;
    ret [r]
  else ret [].

(** [iterate_records], the callback applied to the certificate's
    [domain_validation_options] once the engine resolves them to [dvo]. *)
Definition iterate_records (certificate : Handle) (dvo : list ValidationOption)
    : M (list Handle) :=
  rs <- mapM (dvo_record certificate) (enumerate dvo) ;;
  ret (concat rs).

End Component.

End Certs.

(** ** The cluster component ([modules/eks/eks.py]) *)

Module Eks.

Record EksArgs := mkArgs {
  base_tags : dict string;
  default_certificate_arn : Value;
  eks_version : Value;
  private_subnet_ids : Value;
  public_subnet_ids : Value;
  vpc_id : Value;
  worker_image_id : Value;
  worker_key_name : Value;
  private_endpoint : bool;
  public_endpoint : bool;
  worker_instance_type : Value;
  worker_max_size : Value;
  worker_min_size : Value
}.

Definition EksArgs_sig : Signature :=
  {| callee := "EksArgs.__init__";
     required := ["base_tags"; "default_certificate_arn"; "eks_version";
                  "private_subnet_ids"; "public_subnet_ids"; "vpc_id";
                  "worker_image_id"; "worker_key_name"];
     optional := ["private_endpoint"; "public_endpoint"; "worker_instance_type";
                  "worker_max_size"; "worker_min_size"] |}.

(** [EksArgs.__init__], with its defaults: both endpoints off, instance
    type [t2.medium], worker sizes 10 and 2. *)
Definition EksArgs_init (kwargs : dict Value) : Result EksArgs :=
  _ <-? bind_kwargs EksArgs_sig kwargs ;;
  tags <-? rbind (as_dict (kwarg kwargs "base_tags")) (traverse_dict as_str) ;;
  private <-? as_bool (get_default kwargs "private_endpoint" (VBool false)) ;;
  public <-? as_bool (get_default kwargs "public_endpoint" (VBool false)) ;;
  Ok {| base_tags := tags;
        default_certificate_arn := kwarg kwargs "default_certificate_arn";
        eks_version := kwarg kwargs "eks_version";
        private_subnet_ids := kwarg kwargs "private_subnet_ids";
        public_subnet_ids := kwarg kwargs "public_subnet_ids";
        vpc_id := kwarg kwargs "vpc_id";
        worker_image_id := kwarg kwargs "worker_image_id";
        worker_key_name := kwarg kwargs "worker_key_name";
        private_endpoint := private;
        public_endpoint := public;
        worker_instance_type := get_default kwargs "worker_instance_type" (VStr "t2.medium");
        worker_max_size := get_default kwargs "worker_max_size" (VInt 10);
        worker_min_size := get_default kwargs "worker_min_size" (VInt 2) |}.

(** The attributes of the component the stack program reads afterwards. *)
Record EKS := mkEKS {
  name_of : string;
  ec2_role : Handle;
  eks_cluster : Handle;
  openid_connector : Handle;
  eks_alb : Handle
}.

Section Component.

Variable ext : Externals.
(** [base64.b64encode(text.encode()).decode()], and the SHA-1 fingerprint
    of the first certificate [tls.get_certificate] finds at a URL. *)
Variable b64encode : string -> string.
Variable sha1_fingerprint : string -> string.
Variable name : string.
Variable args : EksArgs.

Definition component_type : string := "EKS".
Definition self : URN := (component_type, name).

Definition cluster_name : string := name ++ "-eks-cluster".

(** The trust policy of a role a service assumes. *)
Definition service_assume_role_policy (service : string) : string :=
  json_dumps ext
    (VDict [("Version", VStr "2012-10-17");
            ("Statement",
             VList [VDict [("Action", VStr "sts:AssumeRole");
                           ("Principal", VDict [("Service", VStr service)]);
                           ("Effect", VStr "Allow");
                           ("Sid", VStr "")]])]).

(** [{'Name': n, **self.base_tags}] *)
Definition named_tags (n : string) : dict string :=
  dict_merge [("Name", n)] (base_tags args).

Definition ingress_rule (port : Z) (description : string) : Value :=
  VDict [("cidr_blocks", VStrs ["0.0.0.0/0"]);
         ("from_port", VInt port);
         ("to_port", VInt port);
         ("protocol", VStr "tcp");
         ("description", VStr description)].

(** The text the launch template encodes as user data. *)
Definition user_data_script (endpoint ca cluster : string) : string :=
  PyMore.newline
  ++ "            #!/bin/bash" ++ PyMore.newline
  ++ "            set -o xtrace" ++ PyMore.newline
  ++ "            /etc/eks/bootstrap.sh --apiserver-endpoint '" ++ endpoint
  ++ "' --kubelet-extra-args --node-labels=node.kubernetes.io/lifecycle=`curl -s http://169.254.169.254/latest/meta-data/instance-life-cycle` --b64-cluster-ca '"
  ++ ca ++ "' '" ++ cluster ++ "' " ++ PyMore.newline
  ++ "            ".

Definition user_data (cluster : Handle) : Output string :=
  apply (fun a => b64encode (user_data_script (nth 0 a "") (nth 1 a "") (nth 2 a "")))
        (PyMore.all [attr ext cluster "endpoint";
                     attr ext cluster "certificate_authority.data";
                     PyMore.from_input cluster_name]).

Definition group_tag (key value : string) : Value :=
  VDict [("key", VStr key);
         ("value", VStr value);
         ("propagate_at_launch", VBool true)].

(** The [tags] of the worker autoscaling group: four of its own, then one
    for each key of [self.base_tags]. *)
Definition group_tags : list Value :=
  ([group_tag "Name" (cluster_name ++ "-worker-node");
    group_tag ("kubernetes.io/cluster/" ++ cluster_name) "owned";
    group_tag ("k8s.io/cluster-autoscaler/" ++ cluster_name) "owned";
    group_tag "k8s.io/cluster-autoscaler/enabled" "true"]
   ++ map (fun k => group_tag k (get_default (base_tags args) k EmptyString))
          (map fst (base_tags args)))%list.

Definition autoscaler_policy : string :=
  json_dumps ext
    (VDict [("Version", VStr "2012-10-17");
            ("Statement",
             VList [VDict [("Action",
                            VStrs ["autoscaling:DescribeAutoScalingGroups";
                                   "autoscaling:DescribeAutoScalingInstances";
                                   "autoscaling:DescribeLaunchConfigurations";
                                   "autoscaling:DescribeTags";
                                   "autoscaling:SetDesiredCapacity";
                                   "autoscaling:TerminateInstanceInAutoScalingGroup";
                                   "ec2:DescribeLaunchTemplateVersions"]);
                           ("Resource", VStr "*");
                           ("Effect", VStr "Allow")]])]).

(** The statements of the autoscaler role's trust policy, for the
    identity provider [o]; [o.split('/',1)[1]] needs a [/] in [o]. *)
Definition autoscaler_trust_statements (o : string) : Result (list Value) :=
  match nth_error (PyMore.split_max o "/" 1) 1 with
  | None => Raise IndexError
  | Some issuer_path =>
      Ok [VDict [("effect", VStr "Allow");
                 ("principals",
                  VList [VDict [("type", VStr "Federated");
                                ("identifiers", VStrs [o])]]);
                 ("actions", VStrs ["sts:AssumeRoleWithWebIdentity"]);
                 ("conditions",
                  VList [VDict [("test", VStr "StringEquals");
                                ("variable", VStr (issuer_path ++ ":sub"));
                                ("values",
                                 VStrs ["system:serviceaccount:kube-system:cluster-autoscaler"])]])]]
  end.

Definition autoscaler_assume_role_policy (oidc : Handle) : Output string :=
  PyMore.apply_raising
    (fun o => match autoscaler_trust_statements o with
              | Ok statements => Ok (get_policy_document_json ext statements)
              | Raise e => Raise e
              end)
    (attr ext oidc "arn").

Definition role_policy_attachment (rname : string) (role : Handle) (policy_arn : string)
    : M URN :=
  declare "aws.iam.RolePolicyAttachment" rname (Some self) []
    [("role", out_str (attr ext role "id"));
     ("policy_arn", VStr policy_arn)].

Definition node_rule (node_group : Handle) (rname : string) (props : dict Value) : M URN :=
  declare "aws.ec2.SecurityGroupRule" rname (Some (urn node_group)) [] props.

(** [EKS.__init__] *)
Definition EKS_init : M EKS :=
  _ <- declare component_type name None [] [] ;;
  eks_role <-
    resource "aws.iam.Role" "eks-iam-role" (Some self) []
      [("assume_role_policy", VStr (service_assume_role_policy "eks.amazonaws.com"));
       ("tags", tags_value (base_tags args))] ;;
  _ <- role_policy_attachment "eks-service-policy-attachment" eks_role
         "arn:aws:iam::aws:policy/AmazonEKSServicePolicy" ;;
  _ <- role_policy_attachment "eks-cluster-policy-attachment" eks_role
         "arn:aws:iam::aws:policy/AmazonEKSClusterPolicy" ;;
  node_role <-
    resource "aws.iam.Role" "ec2-nodegroup-iam-role" (Some self) []
      [("assume_role_policy", VStr (service_assume_role_policy "ec2.amazonaws.com"));
       ("tags", tags_value (base_tags args))] ;;
  _ <- role_policy_attachment "eks-workernode-policy-attachment" node_role
         "arn:aws:iam::aws:policy/AmazonEKSWorkerNodePolicy" ;;
  _ <- role_policy_attachment "eks-cni-policy-attachment" node_role
         "arn:aws:iam::aws:policy/AmazonEKS_CNI_Policy" ;;
  _ <- role_policy_attachment "ec2-container-ro-policy-attachment" node_role
         "arn:aws:iam::aws:policy/AmazonEC2ContainerRegistryReadOnly" ;;
  _ <- role_policy_attachment "ec2-ebs-csi-policy-attachment" node_role
         "arn:aws:iam::aws:policy/service-role/AmazonEBSCSIDriverPolicy" ;;
  _ <- role_policy_attachment "ssm-session-policy-attachment" node_role
         "arn:aws:iam::aws:policy/AmazonSSMManagedInstanceCore" ;;
  eks_security_group <-
    resource "aws.ec2.SecurityGroup" "eks-cluster-sg" (Some self) []
      [("vpc_id", vpc_id args);
       ("description", VStr "Allow all HTTP(s) traffic to EKS Cluster");
       ("tags", tags_value (named_tags "eks-cluster-sg"));
       ("ingress",
        VList [ingress_rule 443 "Allow pods to communicate with the cluster API Server.";
               ingress_rule 80 "Allow internet access to pods"])] ;;
  cluster <-
    resource "aws.eks.Cluster" "eks-cluster" (Some self) []
      [("enabled_cluster_log_types",
        VStrs ["api"; "audit"; "authenticator"; "controllerManager"; "scheduler"]);
       ("name", VStr cluster_name);
       ("role_arn", out_str (attr ext eks_role "arn"));
       ("tags", tags_value (named_tags cluster_name));
       ("vpc_config",
        VDict [("public_access_cidrs", VStrs ["0.0.0.0/0"]);
               ("endpoint_private_access", VBool (if private_endpoint args then true else false));
               ("endpoint_public_access", VBool (if public_endpoint args then true else false));
               ("security_group_ids", VList [out_str (attr ext eks_security_group "id")]);
               ("subnet_ids", private_subnet_ids args)]);
       ("version", eks_version args)] ;;
  let issuer := attr ext cluster "identities[0].oidcs[0].issuer" in
  oidc <-
    resource "aws.iam.OpenIdConnectProvider" (name ++ "-oidc-provider") (Some (urn cluster)) []
      [("client_id_lists", VStrs ["sts.amazonaws.com"]);
       ("thumbprint_lists", VList [out_str (apply sha1_fingerprint issuer)]);
       ("url", out_str issuer);
       ("tags", tags_value (base_tags args))] ;;
  eks_load_balancer_sec_grp <-
    resource "aws.ec2.SecurityGroup" (name ++ "-alb-sec-grp") (Some self) []
      [("vpc_id", vpc_id args);
       ("description", VStr "Security group for EKS Cluster nodes");
       ("tags", tags_value [("Name", "eks-alb-sg")]);
       ("ingress", VList [ingress_rule 80 "HTTP access for ALB";
                          ingress_rule 443 "HTTPS access for ALB"]);
       ("egress", VList [VDict [("cidr_blocks", VStrs ["0.0.0.0/0"]);
                                ("from_port", VInt 0);
                                ("to_port", VInt 0);
                                ("protocol", VStr "-1")]])] ;;
  alb <-
    resource "aws.lb.LoadBalancer" (name ++ "-eks-lb") (Some self) []
      [("load_balancer_type", VStr "application");
       ("security_groups", VList [out_str (attr ext eks_load_balancer_sec_grp "id")]);
       ("subnets", public_subnet_ids args)] ;;
  eks_alb_tg <-
    resource "aws.lb.TargetGroup" (name ++ "-eks-lb-tg") (Some self) []
      [("health_check", VDict [("path", VStr "/ping");
                               ("port", VStr "30900");
                               ("interval", VInt 30)]);
       ("port", VInt 32080);
       ("protocol", VStr "HTTP");
       ("vpc_id", vpc_id args)] ;;
  _ <- declare "aws.lb.Listener" (name ++ "-eks-lb-http-listener") (Some self) []
         [("load_balancer_arn", out_str (attr ext alb "arn"));
          ("port", VInt 80);
          ("protocol", VStr "HTTP");
          ("default_actions",
           VList [VDict [("type", VStr "redirect");
                         ("redirect", VDict [("port", VStr "443");
                                             ("protocol", VStr "HTTPS");
                                             ("status_code", VStr "HTTP_301")])]])] ;;
  _ <- declare "aws.lb.Listener" (name ++ "-eks-lb-https-listener") (Some self) []
         [("load_balancer_arn", out_str (attr ext alb "arn"));
          ("port", VInt 443);
          ("protocol", VStr "HTTPS");
          ("ssl_policy", VStr "ELBSecurityPolicy-2016-08");
          ("certificate_arn", default_certificate_arn args);
          ("default_actions",
           VList [VDict [("type", VStr "forward");
                         ("target_group_arn", out_str (attr ext eks_alb_tg "arn"))]])] ;;
  eks_node_sec_grp <-
    resource "aws.ec2.SecurityGroup" (name ++ "-node-sec-grp") (Some self) []
      [("vpc_id", vpc_id args);
       ("description", VStr "Security group for EKS Cluster nodes");
       ("egress", VList [VDict [("from_port", VInt 0);
                                ("to_port", VInt 0);
                                ("protocol", VStr "-1");
                                ("cidr_blocks", VStrs ["0.0.0.0/0"])]]);
       ("tags", tags_value (named_tags "eks-cluster-node-sg"))] ;;
  _ <- node_rule eks_node_sec_grp (name ++ "-node-sec-grp-self")
         [("type", VStr "ingress");
          ("from_port", VInt 0);
          ("to_port", VInt 0);
          ("protocol", VStr "-1");
          ("description", VStr "Allow node to communicate with each other");
          ("security_group_id", out_str (attr ext eks_node_sec_grp "id"));
          ("source_security_group_id", out_str (attr ext eks_node_sec_grp "id"))] ;;
  _ <- node_rule eks_node_sec_grp (name ++ "-node-sec-grp-cluster")
         [("type", VStr "ingress");
          ("from_port", VInt 0);
          ("to_port", VInt 0);
          ("protocol", VStr "-1");
          ("security_group_id", out_str (attr ext eks_node_sec_grp "id"));
          ("source_security_group_id", out_str (attr ext eks_security_group "id"));
          ("description",
           VStr "Allow worker Kubelets and pods to receive communication from the cluster control plane")] ;;
  _ <- node_rule eks_node_sec_grp (name ++ "-node-sec-grp-ssh")
         [("type", VStr "ingress");
          ("from_port", VInt 22);
          ("to_port", VInt 22);
          ("protocol", VStr "tcp");
          ("security_group_id", out_str (attr ext eks_node_sec_grp "id"));
          ("cidr_blocks", VStrs ["10.0.0.0/8"]);
          ("description", VStr "Allow ssh from vpc")] ;;
  _ <- node_rule eks_node_sec_grp (name ++ "-node-sec-grp-app")
         [("type", VStr "ingress");
          ("from_port", VInt 30000);
          ("to_port", VInt 32800);
          ("protocol", VStr "tcp");
          ("security_group_id", out_str (attr ext eks_node_sec_grp "id"));
          ("cidr_blocks", VStrs ["10.0.0.0/8"]);
          ("description", VStr "Allow app access from vpc")] ;;
  eks_node_instance_profile <-
    resource "aws.iam.InstanceProfile" (name ++ "-node-instance-profile") (Some self) []
      [("role", out_str (attr ext node_role "name"))] ;;
  eks_node_launch_template <-
    resource "aws.ec2.LaunchTemplate" (name ++ "-node-launch-template") (Some self) []
      [("iam_instance_profile",
        VDict [("arn", out_str (attr ext eks_node_instance_profile "arn"))]);
       ("image_id", worker_image_id args);
       ("instance_type", worker_instance_type args);
       ("key_name", worker_key_name args);
       ("name_prefix", VStr cluster_name);
       ("network_interfaces",
        VList [VDict [("associate_public_ip_address", VBool false);
                      ("security_groups", VList [out_str (attr ext eks_node_sec_grp "id")])]]);
       ("block_device_mappings",
        VList [VDict [("device_name", VStr "/dev/xvda");
                      ("ebs", VDict [("delete_on_termination", VBool true);
                                     ("iops", VInt 0);
                                     ("volume_size", VInt 50);
                                     ("volume_type", VStr "gp2")])]]);
       ("user_data", out_str (user_data cluster));
       ("tags", tags_value (base_tags args))] ;;
  eks_node_autoscaling <-
    resource "aws.autoscaling.Group" (name ++ "-node-asg") (Some self) []
      [("instance_refresh", VDict [("strategy", VStr "Rolling")]);
       ("launch_template",
        VDict [("id", out_str (attr ext eks_node_launch_template "id"));
               ("version", VStr "$Latest")]);
       ("max_size", worker_max_size args);
       ("min_size", worker_min_size args);
       ("name", VStr (cluster_name ++ "-worker-node-asg"));
       ("vpc_zone_identifiers", private_subnet_ids args);
       ("tags", VList group_tags);
       ("target_group_arns", VList [out_str (attr ext eks_alb_tg "arn")])] ;;
  eks_autoscaler_policy <-
    resource "aws.iam.Policy" (name ++ "-eks-autoscaler-policy") (Some self) []
      [("policy", VStr autoscaler_policy);
       ("tags", tags_value (base_tags args))] ;;
  eks_autoscaler_role <-
    resource "aws.iam.Role" (name ++ "-eks-autoscaler-role") (Some self) []
      [("assume_role_policy", out_str (autoscaler_assume_role_policy oidc));
       ("tags", tags_value (base_tags args))] ;;
  _ <- declare "aws.iam.RolePolicyAttachment" (name ++ "-eks-autoscaler-attach") (Some self) []
         [("role", out_str (attr ext eks_autoscaler_role "name"));
          ("policy_arn", out_str (attr ext eks_autoscaler_policy "arn"))] ;;
  eks_sc_policy <-
    resource "aws.autoscaling.Policy" (name ++ "-asg-policy") (Some self) []
      [("scaling_adjustment", VInt 2);
       ("adjustment_type", VStr "ChangeInCapacity");
       ("cooldown", VInt 300);
       ("autoscaling_group_name", out_str (attr ext eks_node_autoscaling "name"))] ;;
  _ <- declare "aws.cloudwatch.MetricAlarm" (name ++ "-eks-cpu-alarm") (Some self) []
         [("comparison_operator", VStr "GreaterThanOrEqualToThreshold");
          ("evaluation_periods", VInt 2);
          ("metric_name", VStr "CPUUtilization");
          ("namespace", VStr "AWS/EC2");
          ("period", VInt 300);
          ("statistic", VStr "Average");
          ("threshold", VInt 60);
          ("alarm_actions", VList [out_str (attr ext eks_sc_policy "arn")]);
          ("dimensions",
           VDict [("AutoScalingGroupName", out_str (attr ext eks_node_autoscaling "name"))])] ;;
  ret {| name_of := name;
         ec2_role := node_role;
         eks_cluster := cluster;
         openid_connector := oidc;
         eks_alb := alb |}.

End Component.

End Eks.

(** ** The cluster stack ([eks/__main__.py]) *)

Module EksStack.

Section Programs.

Variable ext : Externals.
Variable b64encode : string -> string.
Variable sha1_fingerprint : string -> string.
Variable envName : string.
Variable config : Config.
Variable stacks : Stacks.

(** [config.get(key, default)] *)
Definition config_get_or (key default : string) : Value :=
  match dict_get config key with
  | Some v => of_data v
  | None => VStr default
  end.

(** [eks_images.get(version)]: the configured object must be a mapping;
    a version it does not list gives [None]. *)
Definition images_get (eks_images version : Value) : Result Value :=
  match eks_images with
  | VDict images =>
      k <-? as_str version ;;
      Ok (get_default images k VNone)
  | _ => Raise (AttributeError "get")
  end.

(** The keyword arguments of the [CertArgs] call, in call order. *)
Definition cert_kwargs (domain : Value) : dict Value :=
  [("alt_names", VList []);
   ("base_tags", tags_value (Stack.BASE_TAGS envName));
   ("domain_name", domain)].

(** The keyword arguments of the [EksArgs] call, in call order. *)
Definition eks_kwargs (certificate : Certs.Certs) (version image instance_type key_name : Value)
    (vpc_stack : URN * dict Published) : dict Value :=
  [("base_tags", tags_value (Stack.BASE_TAGS envName));
   ("default_certificate_arn", out_str (attr ext (Certs.cert certificate) "arn"));
   ("eks_version", version);
   ("private_subnet_ids", VOut (apply (fun ps => ps) (require_output vpc_stack "private_subnet_ids")));
   ("public_endpoint", VBool true);
   ("public_subnet_ids", VOut (apply (fun ps => ps) (require_output vpc_stack "public_subnet_ids")));
   ("vpc_id", VOut (apply (fun v => v) (require_output vpc_stack "vpc_id")));
   ("worker_image_id", image);
   ("worker_instance_type", instance_type);
   ("worker_key_name", key_name);
   ("worker_max_size", config_get config "eks_worker_max_size");
   ("worker_min_size", config_get config "eks_worker_min_size")].

(** [eks/__main__.py] *)
Definition eks_main : M unit :=
  vpc_stack <- StackReference stacks "organization/vpc/vpc-demo" ;;
  domain <- lift (config_require config "cert_domain_name") ;;
  cert_args <- lift (Certs.CertArgs_init (cert_kwargs domain)) ;;
  certificate <- Certs.Certs_init (envName ++ "-certs") cert_args ;;
  eks_images <- lift (config_require config "eks_images") ;;
  version <- lift (config_require config "eks_version") ;;
  image <- lift (images_get eks_images (config_get_or "eks_version" "1.27")) ;;
  instance_type <- lift (config_require config "eks_worker_instance_type") ;;
  key_name <- lift (config_require config "eks_key_pair") ;;
  args <- lift (Eks.EksArgs_init
                  (eks_kwargs certificate version image instance_type key_name vpc_stack)) ;;
  cluster <- Eks.EKS_init ext b64encode sha1_fingerprint (envName ++ "-k") args ;;
  _ <- export "cluster_public_load_balancer"
         (out_str (attr ext (Eks.eks_alb cluster) "dns_name")) ;;
  _ <- export "cluster_name" (VStr (Eks.name_of cluster)) ;;
  _ <- export "cluster_worker_role" (out_str (attr ext (Eks.ec2_role cluster) "arn")) ;;
  _ <- export "cluster_issuer"
         (out_str (attr ext (Eks.eks_cluster cluster) "identities[0].oidcs[0].issuer")) ;;
  export "cluster_openid_connector"
    (out_str (attr ext (Eks.openid_connector cluster) "arn")).

End Programs.

End EksStack.

(** * Properties *)

(** ** Strings *)

Lemma append_cancel (a b c : string) : a ++ b = a ++ c -> b = c.
Proof.
  induction a as [|x a IH]; cbn; intros H; [exact H | injection H as H; auto].
Qed.

Lemma to_uint_nonnil n : Nat.to_uint n <> Decimal.Nil.
Proof.
  rewrite <- (DecimalNat.Unsigned.of_to n) at 1.
  rewrite DecimalNat.Unsigned.to_of. apply DecimalFacts.unorm_nonnil.
Qed.

Lemma of_nat_inj n m : PyStr.of_nat n = PyStr.of_nat m -> n = m.
Proof.
  unfold PyStr.of_nat. intros H.
  apply DecimalNat.Unsigned.to_uint_inj.
  assert (Some (Nat.to_uint n) = Some (Nat.to_uint m)) as E.
  { rewrite <- (NilZero.usu (Nat.to_uint n)) by apply to_uint_nonnil.
    rewrite <- (NilZero.usu (Nat.to_uint m)) by apply to_uint_nonnil.
    now rewrite H. }
  now injection E.
Qed.

(** Where [old] does not occur, [replace] changes nothing. *)
Lemma replace_from_no_match old new s :
  PyStr.contains old s = false -> PyStr.replace_from old new 0 s = s.
Proof.
  induction s as [|c rest IH]; intros H.
  - reflexivity.
  - cbn [PyStr.contains] in H. apply orb_false_iff in H. destruct H as [Hp Hc].
    cbn [PyStr.replace_from]. rewrite Hp. now rewrite IH.
Qed.

(** On a URL with one leading scheme, [replace] strips the scheme. *)
Lemma replace_scheme host :
  PyStr.contains "https://" host = false ->
  PyStr.replace ("https://" ++ host) "https://" "" = host.
Proof.
  intros H. unfold PyStr.replace. simpl.
  replace (prefix "" host) with true by (destruct host; reflexivity).
  now apply replace_from_no_match.
Qed.

(** ** Values *)

Lemma outputs_of_of_data : forall d, outputs_of (of_data d) = [].
Proof.
  fix IH 1. intros [s|l|kvs]; cbn.
  - reflexivity.
  - induction l as [|d l IHl]; cbn; [reflexivity|]. now rewrite IH, IHl.
  - induction kvs as [|[k d] kvs IHl]; cbn; [reflexivity|]. now rewrite IH, IHl.
Qed.

(** [mentions] and [secret_where_mentioned] follow the structure of a value. *)

Lemma mentions_lit u s : mentions u (VLit s) = false.
Proof. reflexivity. Qed.

Lemma mentions_list u l : mentions u (VList l) = existsb (mentions u) l.
Proof.
  unfold mentions. cbn [outputs_of].
  induction l as [|v l IH]; cbn; [reflexivity|]. now rewrite existsb_app, IH.
Qed.

Lemma mentions_dict u d : mentions u (VDict d) = existsb (fun kv => mentions u (snd kv)) d.
Proof.
  unfold mentions. cbn [outputs_of].
  induction d as [|kv d IH]; cbn; [reflexivity|]. now rewrite existsb_app, IH.
Qed.

Lemma mentions_out u o :
  mentions u (VOut o) =
  existsb (urn_eqb u) (deps o) ||
  match resolved o with Ok w => mentions u w | Raise _ => false end.
Proof. unfold mentions. cbn [outputs_of existsb]. now destruct (resolved o). Qed.

Lemma mentions_tags u tags : mentions u (tags_value tags) = false.
Proof.
  unfold tags_value. rewrite mentions_dict. induction tags as [|[k v] t IH]; cbn; auto.
Qed.

Lemma secret_lit u s : secret_where_mentioned u (VLit s) = true.
Proof. reflexivity. Qed.

Lemma secret_list u l :
  secret_where_mentioned u (VList l) = forallb (secret_where_mentioned u) l.
Proof.
  unfold secret_where_mentioned. cbn [outputs_of].
  induction l as [|v l IH]; cbn; [reflexivity|]. now rewrite forallb_app, IH.
Qed.

Lemma secret_dict u d :
  secret_where_mentioned u (VDict d) =
  forallb (fun kv => secret_where_mentioned u (snd kv)) d.
Proof.
  unfold secret_where_mentioned. cbn [outputs_of].
  induction d as [|kv d IH]; cbn; [reflexivity|]. now rewrite forallb_app, IH.
Qed.

Lemma secret_out u o :
  secret_where_mentioned u (VOut o) =
  implb (existsb (urn_eqb u) (deps o)) (is_secret o) &&
  match resolved o with Ok w => secret_where_mentioned u w | Raise _ => true end.
Proof.
  unfold secret_where_mentioned. cbn [outputs_of forallb]. now destruct (resolved o).
Qed.

Lemma unmentioned_is_secret u v : mentions u v = false -> secret_where_mentioned u v = true.
Proof.
  unfold mentions, secret_where_mentioned.
  induction (outputs_of v) as [|o l IH]; cbn; [reflexivity|].
  intros H. apply orb_false_iff in H. destruct H as [H1 H2]. rewrite H1, IH; auto.
Qed.

Ltac route_step :=
  rewrite ?mentions_list, ?mentions_dict, ?mentions_out, ?mentions_lit, ?mentions_tags,
    ?secret_list, ?secret_dict, ?secret_out, ?secret_lit.


Lemma in_enumerate_from {A} (l : list A) : forall k j (a : A),
  In (j, a) (enumerate_from k l) <-> (k <= j /\ nth_error l (j - k) = Some a).
Proof.
  induction l as [|x l IH]; intros k j a; cbn [enumerate_from In].
  - split; [contradiction|]. intros [_ H]. now destruct (j - k).
  - rewrite IH. split.
    + intros [E | [Hle Hn]].
      * injection E as <- <-. split; [lia|]. now rewrite Nat.sub_diag.
      * split; [lia|]. replace (j - k) with (S (j - S k)) by lia. exact Hn.
    + intros [Hle Hn]. destruct (Nat.eq_dec k j) as [<-|Hne].
      * left. rewrite Nat.sub_diag in Hn. cbn in Hn. now injection Hn as <-.
      * right. split; [lia|]. replace (j - k) with (S (j - S k)) in Hn by lia. exact Hn.
Qed.

(** ** Keyword calls *)



(** ** The evaluation monad: what a computation adds to the state *)

Lemma extends_ret P {A} (a : A) : extends P (ret a).
Proof. intros st. exists []. cbn. rewrite List.app_nil_r. auto. Qed.

Lemma extends_raise P {A} e : extends P (@raise A e).
Proof. intros st. exists []. cbn. rewrite List.app_nil_r. auto. Qed.

Lemma extends_lift P {A} (r : Result A) : extends P (lift r).
Proof. intros st. exists []. cbn. rewrite List.app_nil_r. auto. Qed.

Lemma extends_declare (P : Resource -> Prop) ty name parent so props :
  P (mkResource ty name parent so props) -> extends P (declare ty name parent so props).
Proof.
  intros H st. eexists. cbn. split; [reflexivity | split; [reflexivity | auto]].
Qed.

Lemma extends_bind P {A B} (c : M A) (k : A -> M B) :
  extends P c -> (forall a, extends P (k a)) -> extends P (bind c k).
Proof.
  intros Hc Hk st. unfold bind.
  destruct (Hc st) as (e1 & R1 & X1 & F1).
  destruct (c st) as [[a|e] st']; cbn [snd] in *.
  - destruct (Hk a st') as (e2 & R2 & X2 & F2).
    exists (e1 ++ e2)%list. rewrite R2, R1, X2, X1, List.app_assoc.
    split; [reflexivity | split; [reflexivity | now apply Forall_app]].
  - exists e1. auto.
Qed.

Lemma extends_mapM P {A B} (f : A -> M B) l :
  (forall a, extends P (f a)) -> extends P (mapM f l).
Proof.
  intros Hf. induction l as [|a l IH]; cbn [mapM].
  - apply extends_ret.
  - apply extends_bind; [apply Hf | intros b].
    apply extends_bind; [apply IH | intros bs; apply extends_ret].
Qed.

Ltac extends_tac :=
  repeat first
    [ apply extends_ret | apply extends_raise | apply extends_lift
    | apply extends_declare
    | apply extends_mapM; intros
    | apply extends_bind; [|intros] ].

(** ** The application component *)

Lemma create_record_extends ext name args e :
  extends ingress_resource (App.create_record ext name args e).
Proof.
  unfold App.create_record.
  destruct (truthy _); extends_tac. now right.
Qed.

Lemma ingress_extends ext name args :
  extends ingress_resource (App.ingress ext name args).
Proof.
  unfold App.ingress.
  destruct (0 <? _)%nat; extends_tac; try (now left). apply create_record_extends.
Qed.

(** Evaluate the component up to the ingress block, in both cases of the
    permission list, and name what the ingress block adds. *)
Ltac app_core :=
  unfold run, App.KubernetesService, bind, resource, declare, ret, initial;
  destruct (App.service_permissions _) as [|p ps] eqn:Eperm; cbn;
  match goal with
  | |- context [App.ingress ?e ?n ?a ?s] =>
      destruct (ingress_extends e n a s) as (extra & Rextra & Xextra & Fextra);
      cbn [resources exports] in Rextra, Xextra
  end.

Ltac in_cases H :=
  repeat (destruct H as [H|H]; [subst; cbn in *|]); try contradiction.

(** C1: for every namespace and service name, the trust condition of the
    role the component declares tests, with StringEquals, the variable
    [<issuer without https://>:sub] against the single value
    [system:serviceaccount:<namespace>:<name>], where [<name>] and
    [<namespace>] are those of the service account the component declares.
    The scheme is removed with [str.replace]; on an issuer URL, which holds
    [https://] once, at its head, that is the URL without its scheme. *)
Theorem trust_condition_of_service_account ext name args issuer ns :
  resolved (App.kube_issuer args) = Ok issuer ->
  resolved (App.namespace args) = Ok ns ->
  exists role service_account variable value,
    In role (resources (snd (run (App.KubernetesService ext name args)))) /\
    rtype role = "aws.iam.Role" /\
    dict_get (rprops role) "assume_role_policy" =
      Some (VStr (get_policy_document_json ext
        [VDict [("effect", VStr "Allow");
                ("principals",
                 VList [VDict [("identifiers", VList [App.openid_connector args]);
                               ("type", VStr "Federated")]]);
                ("actions", VStrs ["sts:AssumeRoleWithWebIdentity"]);
                ("conditions",
                 VList [VDict [("test", VStr "StringEquals");
                               ("variable", out_str variable);
                               ("values", VList [out_str value])]])]])) /\
    resolved variable = Ok (PyStr.replace issuer "https://" "" ++ ":sub") /\
    (forall host, issuer = "https://" ++ host -> PyStr.contains "https://" host = false ->
       resolved variable = Ok (host ++ ":sub")) /\
    resolved value = Ok ("system:serviceaccount:" ++ ns ++ ":" ++ name) /\
    In service_account (resources (snd (run (App.KubernetesService ext name args)))) /\
    rtype service_account = "k8s.core.v1.ServiceAccount" /\
    (exists metadata,
       dict_get (rprops service_account) "metadata" = Some metadata /\
       vget metadata "name" = Some (VStr name) /\
       vget metadata "namespace" = Some (out_str (App.namespace args))).
Proof.
  intros Hi Hn.
  set (role := mkResource "aws.iam.Role" (name ++ "-role") (Some (App.self name)) []
            [("assume_role_policy",
              VStr (get_policy_document_json ext (App.service_role_assume_policy name args)));
             ("name", VStr (name ++ "-role"));
             ("tags", tags_value (App.base_tags args))]).
  exists role,
         (mkResource "k8s.core.v1.ServiceAccount" (name ++ "-sa") (Some (App.self name)) []
            [("metadata",
              VDict [("annotations",
                      VDict [("eks.amazonaws.com/role-arn", out_str (attr ext (handle_of role) "arn"))]);
                     ("name", VStr name);
                     ("namespace", out_str (App.namespace args))])]),
         (App.condition_variable args), (App.condition_value name args).
  split.
  { subst role. app_core; rewrite Rextra; apply in_or_app; left; cbn; tauto. }
  split; [reflexivity|]. split; [reflexivity|].
  unfold App.condition_variable, App.condition_value, apply; cbn [resolved].
  rewrite Hi, Hn.
  split; [reflexivity|].
  split; [intros host -> Hc; now rewrite replace_scheme|].
  split; [reflexivity|].
  split.
  { subst role. app_core; rewrite Rextra; apply in_or_app; left; cbn; tauto. }
  split; [reflexivity|].
  eexists. split; [reflexivity|]. split; reflexivity.
Qed.

(** The spec's example: issuer [https://x.eks.amazonaws.com/id/ABC],
    service [demoapp-app] in namespace [demoapp]. *)
Lemma trust_condition_example :
  resolved (App.kube_issuer Sample.app_args) = Ok "https://x.eks.amazonaws.com/id/ABC" /\
  resolved (App.namespace Sample.app_args) = Ok "demoapp" /\
  exists role variable value,
    In role (resources (snd (run (App.KubernetesService Sample.ext "demoapp-app"
                                    Sample.app_args)))) /\
    vget (VDict (rprops role)) "assume_role_policy" =
      Some (VStr (get_policy_document_json Sample.ext
        [VDict [("effect", VStr "Allow");
                ("principals",
                 VList [VDict [("identifiers", VList [App.openid_connector Sample.app_args]);
                               ("type", VStr "Federated")]]);
                ("actions", VStrs ["sts:AssumeRoleWithWebIdentity"]);
                ("conditions",
                 VList [VDict [("test", VStr "StringEquals");
                               ("variable", out_str variable);
                               ("values", VList [out_str value])]])]])) /\
    resolved variable = Ok "x.eks.amazonaws.com/id/ABC:sub" /\
    resolved value = Ok "system:serviceaccount:demoapp:demoapp-app".
Proof.
  split; [reflexivity|]. split; [reflexivity|].
  destruct (trust_condition_of_service_account Sample.ext "demoapp-app" Sample.app_args
              "https://x.eks.amazonaws.com/id/ABC" "demoapp" eq_refl eq_refl)
    as (role & sa & variable & value & Hin & _ & Hpol & _ & Hstrip & Hval & _).
  exists role, variable, value.
  split; [exact Hin|]. split; [exact Hpol|].
  split; [exact (Hstrip "x.eks.amazonaws.com/id/ABC" eq_refl eq_refl) | exact Hval].
Defined.

Lemma traverse_names (l : list (dict Scalar)) :
  Forall has_name l -> exists names, traverse (fun h => getitem h "name") l = Ok names.
Proof.
  induction 1 as [|h l Hh Hl [names IH]]; cbn.
  - now exists [].
  - unfold getitem at 1. unfold has_name in Hh.
    destruct (dict_get h "name") as [n|]; [|congruence].
    rewrite IH. now exists (n :: names).
Qed.

(** The record loop, entry by entry, when every entry has a name. *)
Lemma create_records_run ext name args : forall l i st,
  Forall has_name l ->
  exists us,
    mapM (App.create_record ext name args) (enumerate_from i l) st =
    (Ok us, {| resources := (resources st
                               ++ expected_records ext name args (enumerate_from i l))%list;
               exports := exports st |}).
Proof.
  induction l as [|h l IH]; intros i st Hn.
  - exists []. cbn. rewrite List.app_nil_r. now destruct st.
  - inversion Hn as [|? ? Hh Hl]; subst.
    unfold has_name in Hh.
    cbn [enumerate_from mapM expected_records flat_map].
    unfold bind at 1. unfold App.create_record at 1. cbn [fst snd].
    destruct (truthy (get_default h "create_record" (SBool true))).
    + unfold getitem. destruct (dict_get h "name") as [n|] eqn:E; [|congruence].
      unfold bind, lift, declare, ret. cbn [resources exports].
      destruct (IH (S i)
                  {| resources :=
                       (resources st
                          ++ [mkResource "aws.route53.Record" (App.record_name name i)
                                (Some (App.self name)) [] (App.record_props ext args n)])%list;
                     exports := exports st |} Hl) as [us Hus].
      unfold bind in Hus. rewrite Hus. cbn [resources exports].
      exists (tt :: us). now rewrite <- List.app_assoc.
    + unfold ret at 1.
      destruct (IH (S i) st Hl) as [us Hus]. unfold bind. rewrite Hus.
      exists (tt :: us). reflexivity.
Qed.

(** With named entries the component runs to its end; the DNS records are
    the last resources it declares. *)
Lemma run_ok ext name args :
  Forall has_name (App.hostname_list args) ->
  exists core,
    run (App.KubernetesService ext name args) =
      (Ok tt, {| resources := (core ++ expected_records ext name args
                                         (enumerate (App.hostname_list args)))%list;
                 exports := [] |}) /\
    Forall (fun r => rtype r <> "aws.route53.Record") core.
Proof.
  intros Hn.
  unfold run, App.KubernetesService, bind, resource, declare, ret, initial;
  destruct (App.service_permissions args) as [|p ps] eqn:Eperm; cbn;
  unfold App.ingress;
  (destruct (App.hostname_list args) as [|h0 l0] eqn:El;
   [ cbn; eexists; split; [unfold ret; rewrite List.app_nil_r; reflexivity|]
   | cbn [length Nat.ltb Nat.leb];
     destruct (traverse_names _ Hn) as [names Hnames];
     unfold bind, lift, declare; rewrite Hnames; cbn [resources exports];
     match goal with
     | |- context [mapM ?f (enumerate ?l) ?s] =>
         destruct (create_records_run ext name args l 0 s Hn) as [us Hus];
         unfold enumerate; rewrite Hus
     end;
     cbn [resources exports]; eexists; split; [unfold ret; reflexivity|] ]);
  repeat (constructor; [cbn; discriminate|]); constructor.
Qed.

Lemma record_name_inj name i j : App.record_name name i = App.record_name name j -> i = j.
Proof.
  unfold App.record_name. intros H.
  apply append_cancel in H. apply (append_cancel "-record") in H. now apply of_nat_inj.
Qed.

(** C5: for every entry of the hostname list (entries carry a name), a DNS
    record is created for it exactly when [rec.get('create_record', True)]
    holds: an entry with the key unset gets its record, an entry with the
    key explicitly [False] gets none, and for a key that is unset or a
    boolean the record exists if and only if the key is not [False]. *)
Theorem dns_record_unless_disabled ext name args :
  Forall (fun h => dict_get h "name" <> None) (App.hostname_list args) ->
  exists st,
    run (App.KubernetesService ext name args) = (Ok tt, st) /\
    forall i h, nth_error (App.hostname_list args) i = Some h ->
      (created_for st name i h <->
         truthy (get_default h "create_record" (SBool true)) = true) /\
      (dict_get h "create_record" = None -> created_for st name i h) /\
      (dict_get h "create_record" = Some (SBool false) -> ~ created_for st name i h) /\
      ((dict_get h "create_record" = None \/
        exists b, dict_get h "create_record" = Some (SBool b)) ->
       (created_for st name i h <-> dict_get h "create_record" <> Some (SBool false))).
Proof.
  intros Hn. destruct (run_ok ext name args Hn) as (core & Hrun & Hcore).
  eexists. split; [exact Hrun|]. intros i h Hi.
  assert (created_for {| resources := (core ++ expected_records ext name args
                                         (enumerate (App.hostname_list args)))%list;
                         exports := [] |} name i h <->
          truthy (get_default h "create_record" (SBool true)) = true) as Hiff.
  { unfold created_for. cbn [resources]. split.
    - intros (r & Hr & Ht & Hname & _). apply in_app_or in Hr. destruct Hr as [Hr|Hr].
      + rewrite Forall_forall in Hcore. now destruct (Hcore r Hr).
      + unfold expected_records in Hr. apply in_flat_map in Hr.
        destruct Hr as ([j h'] & Hj & Hr). cbn [fst snd] in Hr.
        apply in_enumerate_from in Hj. destruct Hj as [_ Hj]. rewrite Nat.sub_0_r in Hj.
        destruct (truthy (get_default h' "create_record" (SBool true))) eqn:Et; [|contradiction].
        destruct (dict_get h' "name"); [|contradiction].
        destruct Hr as [<-|[]]. cbn [rname] in Hname.
        apply record_name_inj in Hname. subst j. congruence.
    - intros Ht. rewrite Forall_forall in Hn.
      assert (In h (App.hostname_list args)) as Hin by (eapply nth_error_In; eauto).
      specialize (Hn h Hin). destruct (dict_get h "name") as [n|] eqn:En; [|congruence].
      eexists. split; [|split; [|split]].
      + apply in_or_app. right. unfold expected_records. apply in_flat_map.
        exists (i, h). split.
        * apply in_enumerate_from. rewrite Nat.sub_0_r. split; [lia|exact Hi].
        * cbn [fst snd]. rewrite Ht, En. left. reflexivity.
      + reflexivity.
      + reflexivity.
      + reflexivity. }
  split; [exact Hiff|]. unfold get_default in Hiff.
  split; [|split].
  - intros E. rewrite E in Hiff. now apply Hiff.
  - intros E. rewrite E in Hiff. intros C. apply Hiff in C. discriminate.
  - intros [E | [b E]]; rewrite E in Hiff |- *; rewrite Hiff.
    + split; [discriminate|reflexivity].
    + cbn. destruct b; split; congruence.
Qed.

(** Two hostnames, the first with the flag unset, the second with the flag
    false: a record for the first, none for the second. *)
Lemma dns_record_example :
  Forall (fun h => dict_get h "name" <> None) (App.hostname_list Sample.app_args) /\
  exists st,
    run (App.KubernetesService Sample.ext "demoapp-app" Sample.app_args) = (Ok tt, st) /\
    created_for st "demoapp-app" 0 [("name", SStr "demoapp.cloudlan.net")] /\
    ~ created_for st "demoapp-app" 1
        [("name", SStr "internal.cloudlan.net"); ("create_record", SBool false)].
Proof.
  assert (Forall (fun h => dict_get h "name" <> None) (App.hostname_list Sample.app_args))
    as Hnames by (repeat constructor; discriminate).
  split; [exact Hnames|].
  destruct (dns_record_unless_disabled Sample.ext "demoapp-app" Sample.app_args Hnames)
    as (st & Hrun & Hrec).
  exists st. split; [exact Hrun|]. split.
  - destruct (Hrec 0 _ eq_refl) as (_ & Hunset & _). now apply Hunset.
  - destruct (Hrec 1 _ eq_refl) as (_ & _ & Hfalse & _). now apply Hfalse.
Defined.

(** C6: with an empty permission list the component declares no IAM policy
    and no role-policy attachment; a policy, and its attachment, exist
    exactly when the permission list is non-empty. *)
Theorem policy_only_for_permissions ext name args :
  let final := resources (snd (run (App.KubernetesService ext name args))) in
  (App.service_permissions args = [] ->
   forall r, In r final ->
     rtype r <> "aws.iam.Policy" /\ rtype r <> "aws.iam.RolePolicyAttachment") /\
  ((exists r, In r final /\ rtype r = "aws.iam.Policy") <->
   App.service_permissions args <> []) /\
  ((exists r, In r final /\ rtype r = "aws.iam.RolePolicyAttachment") <->
   App.service_permissions args <> []).
Proof.
  assert (forall r extra, Forall ingress_resource extra -> In r extra ->
            rtype r <> "aws.iam.Policy" /\ rtype r <> "aws.iam.RolePolicyAttachment")
    as Hextra.
  { intros r extra F Hin. rewrite Forall_forall in F.
    destruct (F r Hin) as [E|E]; rewrite E; split; discriminate. }
  app_core; rewrite Rextra.
  - split; [intros _ r Hr; apply in_app_or in Hr; destruct Hr as [Hr|Hr];
            [in_cases Hr; split; discriminate | eauto]|].
    split; (split; [|congruence]);
      intros (r & Hr & Ht); apply in_app_or in Hr; destruct Hr as [Hr|Hr];
      solve [in_cases Hr; discriminate | destruct (Hextra r extra Fextra Hr); congruence].
  - split; [discriminate|].
    split; (split; [discriminate|intros _]).
    + eexists. split; [apply in_or_app; left; right; left; reflexivity | reflexivity].
    + eexists. split; [apply in_or_app; left; do 4 right; left; reflexivity | reflexivity].
Qed.

(** A component without extra permissions declares neither. *)
Lemma policy_example :
  App.service_permissions Sample.app_args = [] /\
  forall r,
    In r (resources (snd (run (App.KubernetesService Sample.ext "demoapp-app"
                                 Sample.app_args)))) ->
    rtype r <> "aws.iam.Policy" /\ rtype r <> "aws.iam.RolePolicyAttachment".
Proof.
  split; [reflexivity|].
  exact (proj1 (policy_only_for_permissions Sample.ext "demoapp-app" Sample.app_args)
           eq_refl).
Defined.

(** ** The database component *)

(** C4: the component declares one database cluster; when
    [is_prod_database] is true the cluster sets [skip_final_snapshot] to
    false and a non-empty [final_snapshot_identifier], when it is false
    the cluster sets [skip_final_snapshot] to true. *)
Theorem final_snapshot_follows_production_flag ext name args :
  exists db st cluster,
    run (Db.RdsDb_init ext name args) = (Ok db, st) /\
    In cluster (resources st) /\
    (forall r, In r (resources st) -> rtype r = "aws.rds.Cluster" -> r = cluster) /\
    rtype cluster = "aws.rds.Cluster" /\
    (Db.is_prod_database args = true ->
       dict_get (rprops cluster) "skip_final_snapshot" = Some (VBool false) /\
       exists id, dict_get (rprops cluster) "final_snapshot_identifier" = Some (VStr id) /\
                  id <> "") /\
    (Db.is_prod_database args = false ->
       dict_get (rprops cluster) "skip_final_snapshot" = Some (VBool true)).
Proof.
  unfold run, Db.RdsDb_init, bind, resource, declare, ret, initial. cbn.
  do 3 eexists. split; [reflexivity|]. cbn [resources].
  split; [do 5 right; left; reflexivity|].
  split.
  { intros r Hr Ht.
    repeat (destruct Hr as [Hr|Hr]; [subst r; try discriminate Ht; try reflexivity|]).
    contradiction. }
  split; [reflexivity|].
  cbn. unfold Db.skip_final_snapshot, Db.final_snapshot_identifier.
  split; intros ->; cbn; [|reflexivity].
  split; [reflexivity|]. eexists. split; [reflexivity|]. destruct name; discriminate.
Qed.

(** A production database keeps a final snapshot named after it; a
    non-production one skips it. *)
Lemma final_snapshot_example :
  Db.is_prod_database (Sample.db_args true) = true /\
  Db.is_prod_database (Sample.db_args false) = false /\
  (exists cluster,
     In cluster (resources (snd (run (Db.RdsDb_init Sample.ext "demo-db"
                                        (Sample.db_args true))))) /\
     rtype cluster = "aws.rds.Cluster" /\
     dict_get (rprops cluster) "skip_final_snapshot" = Some (VBool false) /\
     exists id, dict_get (rprops cluster) "final_snapshot_identifier" = Some (VStr id) /\
                id <> "") /\
  (exists cluster,
     In cluster (resources (snd (run (Db.RdsDb_init Sample.ext "demo-db"
                                        (Sample.db_args false))))) /\
     rtype cluster = "aws.rds.Cluster" /\
     dict_get (rprops cluster) "skip_final_snapshot" = Some (VBool true)).
Proof.
  split; [reflexivity|]. split; [reflexivity|]. split.
  - destruct (final_snapshot_follows_production_flag Sample.ext "demo-db" (Sample.db_args true))
      as (db & st & cluster & Hrun & Hin & _ & Hty & Hprod & _).
    rewrite Hrun. exists cluster. split; [exact Hin|]. split; [exact Hty|].
    exact (Hprod eq_refl).
  - destruct (final_snapshot_follows_production_flag Sample.ext "demo-db" (Sample.db_args false))
      as (db & st & cluster & Hrun & Hin & _ & Hty & _ & Hdev).
    rewrite Hrun. exists cluster. split; [exact Hin|]. split; [exact Hty|].
    exact (Hdev eq_refl).
Defined.

(** C8: for every database component, the random password resource lists
    [result] among its additional secret outputs, so its result is a secret
    output, and the only resource fields that receive a value computed
    from it are the cluster's [master_password] and the secret version's
    [secret_string]; in the stack program the only stack output computed
    from it is [db_admin_password]; every such value is marked secret. *)
Theorem admin_password_routed_as_secret ext :
  (forall name args,
     independent_of (db_password_urn name) args ->
     exists db st,
       run (Db.RdsDb_init ext name args) = (Ok db, st) /\
       urn (Db.db_password db) = db_password_urn name /\
       handle_secrets (Db.db_password db) = ["result"] /\
       is_secret (attr ext (Db.db_password db) "result") = true /\
       routes (db_password_urn name) st =
         [("aws.rds.Cluster", "master_password");
          ("aws.secretsmanager.SecretVersion", "secret_string")] /\
       kept_secret (db_password_urn name) st = true) /\
  (forall envName config stacks major,
     dict_get config "db_major_version" = Some major ->
     exists st password,
       run (Stack.db_main ext envName config stacks) = (Ok tt, st) /\
       In password (resources st) /\
       urn_of password = db_password_urn (envName ++ "-db") /\
       additional_secret_outputs password = ["result"] /\
       dict_get (exports st) "db_admin_password" =
         Some (out_str (attr ext (handle_of password) "result")) /\
       routes (urn_of password) st =
         [("aws.rds.Cluster", "master_password");
          ("aws.secretsmanager.SecretVersion", "secret_string")] /\
       exported_under (urn_of password) st = ["db_admin_password"] /\
       kept_secret (urn_of password) st = true).
Proof.
  split.
  - intros name args (Hc & Hp & Hv & Hm).
    pose proof (unmentioned_is_secret _ _ Hc) as Sc.
    pose proof (unmentioned_is_secret _ _ Hp) as Sp.
    pose proof (unmentioned_is_secret _ _ Hv) as Sv.
    pose proof (unmentioned_is_secret _ _ Hm) as Sm.
    pose proof (fun t => unmentioned_is_secret _ _ (mentions_tags (db_password_urn name) t))
      as St.
    unfold run, Db.RdsDb_init, bind, resource, declare, ret, initial. cbn.
    do 2 eexists. split; [reflexivity|].
    split; [reflexivity|]. split; [reflexivity|]. split; [reflexivity|].
    unfold routes, kept_secret, Db.serverless_db_props.
    cbn -[mentions secret_where_mentioned db_password_urn tags_value].
    unfold VStrs, VStr, VInt, VBool, VNone, out_str, Db.final_snapshot_identifier,
      Db.skip_final_snapshot, VStr, VBool, VNone.
    repeat (route_step; cbn -[mentions secret_where_mentioned db_password_urn tags_value]).
    rewrite ?Hc, ?Hp, ?Hv, ?Hm, ?Sc, ?Sp, ?Sv, ?Sm, ?St.
    unfold db_password_urn, urn_eqb. cbn [fst snd]. rewrite ?String.eqb_refl.
    destruct (Db.is_prod_database args); cbn; auto.
  - intros envName config stacks major Hmajor.
    unfold run, Stack.db_main, StackReference, bind, lift, declare, ret, initial,
      config_require.
    rewrite Hmajor. cbn.
    unfold Db.RdsDb_init, bind, resource, declare, ret, export. cbn.
    do 2 eexists. split; [reflexivity|].
    split; [cbn; do 6 right; left; reflexivity|].
    split; [reflexivity|]. split; [reflexivity|]. split; [reflexivity|].
    unfold routes, exported_under, kept_secret, mentions, secret_where_mentioned.
    cbn [resources exports urn_of rtype rname rprops flat_map].
    unfold config_get_object.
    cbn.
    repeat match goal with
    | |- context [dict_get ?d "private_subnet_ids"] =>
        destruct (dict_get d "private_subnet_ids")
    | |- context [dict_get ?d "vpc_id"] => destruct (dict_get d "vpc_id")
    end;
    rewrite ?outputs_of_of_data, ?String.eqb_refl; cbn; auto.
Qed.

(** A database component over plain arguments, and the database stack of
    the sample configuration. *)
Lemma admin_password_example :
  independent_of (db_password_urn "demo-db") (Sample.db_args true) /\
  dict_get Sample.db_config "db_major_version" = Some (DStr "8.0") /\
  (exists db st,
     run (Db.RdsDb_init Sample.ext "demo-db" (Sample.db_args true)) = (Ok db, st) /\
     routes (db_password_urn "demo-db") st =
       [("aws.rds.Cluster", "master_password");
        ("aws.secretsmanager.SecretVersion", "secret_string")] /\
     kept_secret (db_password_urn "demo-db") st = true) /\
  (exists st,
     run (Stack.db_main Sample.ext "demo" Sample.db_config Sample.stacks) = (Ok tt, st) /\
     routes (db_password_urn "demo-db") st =
       [("aws.rds.Cluster", "master_password");
        ("aws.secretsmanager.SecretVersion", "secret_string")] /\
     exported_under (db_password_urn "demo-db") st = ["db_admin_password"] /\
     kept_secret (db_password_urn "demo-db") st = true).
Proof.
  assert (independent_of (db_password_urn "demo-db") (Sample.db_args true)) as Hfree
    by (repeat split).
  split; [exact Hfree|]. split; [reflexivity|].
  destruct (admin_password_routed_as_secret Sample.ext) as [Hcomponent Hstack].
  split.
  - destruct (Hcomponent "demo-db" (Sample.db_args true) Hfree)
      as (db & st & Hrun & _ & _ & _ & Hroutes & Hsecret).
    exists db, st. repeat split; assumption.
  - destruct (Hstack "demo" Sample.db_config Sample.stacks (DStr "8.0") eq_refl)
      as (st & password & Hrun & _ & Hurn & _ & _ & Hroutes & Hexp & Hsecret).
    exists st. rewrite Hurn in Hroutes, Hexp, Hsecret.
    split; [exact Hrun|]. split; [exact Hroutes|]. split; [exact Hexp | exact Hsecret].
Defined.

(** ** The cluster-services component *)

(** C10: whatever the inputs, the [mapRoles] entry of the [aws-auth]
    ConfigMap is the YAML text of the worker node role's entry followed by
    the literal entry that puts [arn:aws:iam::389169665533:role/ci-role]
    in [system:masters]. *)
Theorem ci_role_always_in_masters ext name args worker_role :
  resolved (Svcs.worker_role_arn args) = Ok worker_role ->
  let ci_entry :=
    VDict [("rolearn", VStr "arn:aws:iam::389169665533:role/ci-role");
           ("username", VStr "ci-user");
           ("groups", VStrs ["system:masters"])] in
  let worker_entry :=
    VDict [("rolearn", VStr worker_role);
           ("username", VStr "system:node:{{EC2PrivateDNSName}}");
           ("groups", VStrs ["system:bootstrappers"; "system:nodes"])] in
  exists st config_map data map_roles,
    run (Svcs.ServicesResources ext name args) = (Ok tt, st) /\
    In config_map (resources st) /\
    (forall r, In r (resources st) -> rtype r = "k8s.core.v1.ConfigMap" -> r = config_map) /\
    rtype config_map = "k8s.core.v1.ConfigMap" /\
    dict_get (rprops config_map) "metadata" =
      Some (VDict [("name", VStr "aws-auth"); ("namespace", VStr "kube-system")]) /\
    dict_get (rprops config_map) "data" = Some data /\
    vget data "mapRoles" = Some (out_str map_roles) /\
    resolved map_roles = Ok (yaml_dump ext (VList [worker_entry; ci_entry])) /\
    (forall any_role, In ci_entry (Svcs.node_cluster_map_roles any_role)).
Proof.
  intros Hw ci_entry worker_entry.
  unfold run, Svcs.ServicesResources, bind, resource, declare, ret, initial. cbn.
  do 4 eexists. split; [reflexivity|]. cbn [resources].
  split; [right; left; reflexivity|].
  split.
  { intros r Hr Ht.
    repeat (destruct Hr as [Hr|Hr]; [subst r; try discriminate Ht; try reflexivity|]).
    contradiction. }
  split; [reflexivity|]. split; [reflexivity|]. split; [reflexivity|].
  split; [reflexivity|].
  split.
  - unfold apply. cbn [resolved]. rewrite Hw. reflexivity.
  - intros any_role. right. left. reflexivity.
Qed.

(** A cluster-services component given only a worker role still maps the
    CI role. *)
Lemma ci_role_example :
  resolved (Svcs.worker_role_arn Sample.svcs_args) = Ok "arn:aws:iam::1:role/worker" /\
  exists st config_map data map_roles,
    run (Svcs.ServicesResources Sample.ext "demo-svcs" Sample.svcs_args) = (Ok tt, st) /\
    In config_map (resources st) /\
    dict_get (rprops config_map) "data" = Some data /\
    vget data "mapRoles" = Some (out_str map_roles) /\
    resolved map_roles =
      Ok (yaml_dump Sample.ext
            (VList [VDict [("rolearn", VStr "arn:aws:iam::1:role/worker");
                           ("username", VStr "system:node:{{EC2PrivateDNSName}}");
                           ("groups", VStrs ["system:bootstrappers"; "system:nodes"])];
                    VDict [("rolearn", VStr "arn:aws:iam::389169665533:role/ci-role");
                           ("username", VStr "ci-user");
                           ("groups", VStrs ["system:masters"])]])).
Proof.
  split; [reflexivity|].
  destruct (ci_role_always_in_masters Sample.ext "demo-svcs" Sample.svcs_args
              "arn:aws:iam::1:role/worker" eq_refl)
    as (st & cm & data & roles & Hrun & Hin & _ & _ & _ & Hdata & Hget & Hres & _).
  exists st, cm, data, roles. repeat split; assumption.
Defined.

(** ** The stack programs *)





(** C2, on the code: whatever the arguments, the one autoscaler the
    component declares has [min_replicas] 1 and [max_replicas] 6, with a
    cpu and a memory target of 60; and a stack configured with replica
    bounds 2 and 4 declares no autoscaler at all, because the constructor
    rejects the bounds. *)
Theorem autoscaler_bounds_are_literals :
  (forall ext name args,
     exists hpa spec,
       In hpa (resources (snd (run (App.KubernetesService ext name args)))) /\
       (forall r, In r (resources (snd (run (App.KubernetesService ext name args)))) ->
          rtype r = autoscaler_type -> r = hpa) /\
       rtype hpa = autoscaler_type /\
       dict_get (rprops hpa) "spec" = Some spec /\
       vget spec "min_replicas" = Some (VInt 1) /\
       vget spec "max_replicas" = Some (VInt 6) /\
       vget spec "metrics" =
         Some (VList [App.utilization_metric "cpu"; App.utilization_metric "memory"])) /\
  dict_get Sample.app_config "app_min_replicas" = Some (DInt 2) /\
  dict_get Sample.app_config "app_max_replicas" = Some (DInt 4) /\
  exists st,
    run (Stack.app_main Sample.ext "demoapp" Sample.app_config Sample.stacks) =
      (Raise (TypeError (UnexpectedKeyword "KubernetesServiceArgs.__init__" "max_replicas")),
       st) /\
    forall r, In r (resources st) -> rtype r <> autoscaler_type.
Proof.
  split.
  - intros ext name args.
    exists (mkResource autoscaler_type (name ++ "-app-hpa") (Some (App.self name)) []
              [("metadata", App.labelled_meta name args); ("spec", App.autoscaling_spec name)]),
           (App.autoscaling_spec name).
    split; [app_core; rewrite Rextra; apply in_or_app; left; cbn; tauto|].
    split; [|repeat split].
    intros r Hr Ht. revert Hr.
    app_core; rewrite Rextra; intros Hr; apply in_app_or in Hr; destruct Hr as [Hr|Hr].
    1,3: in_cases Hr; try discriminate; reflexivity.
    all: rewrite Forall_forall in Fextra; destruct (Fextra r Hr) as [E|E];
      rewrite E in Ht; discriminate.
  - split; [reflexivity|]. split; [reflexivity|].
    eexists. split; [vm_compute; reflexivity|].
    intros r Hr. in_cases Hr; discriminate.
Qed.







(** ** The network stack *)



(** * Further properties of the components *)

(** ** The application component, beyond the claims *)

Lemma traverse_names_missing (l : list (dict Scalar)) :
  Exists (fun h => dict_get h "name" = None) l ->
  traverse (fun h => getitem h "name") l = Raise (KeyError "name").
Proof.
  induction 1 as [h l Hh | h l Hl IH]; cbn.
  - unfold getitem. now rewrite Hh.
  - unfold getitem at 1. destruct (dict_get h "name"); [|reflexivity]. now rewrite IH.
Qed.

(** What the component declares apart from the ingress block does not
    depend on the hostnames. *)
Lemma run_through_core ext name args :
  run (App.KubernetesService ext name args) =
  App.ingress ext name args
    {| resources := app_core ext name args; exports := [] |}.
Proof.
  unfold app_core, run, App.KubernetesService, bind, resource, declare, ret, initial.
  change (App.service_permissions (without_hostnames args))
    with (App.service_permissions args).
  destruct (App.service_permissions args) as [|p ps]; reflexivity.
Qed.

Lemma core_resources_shape ext name args :
  Forall (fun r => ~ ingress_resource r) (app_core ext name args) /\
  NoDup (map rtype (app_core ext name args)) /\
  Forall (owned_by (App.self name)) (app_core ext name args) /\
  fst (run (App.KubernetesService ext name (without_hostnames args))) = Ok tt /\
  exports (snd (run (App.KubernetesService ext name (without_hostnames args)))) = [].
Proof.
  unfold app_core, run, App.KubernetesService, bind, resource, declare, ret, initial, App.ingress.
  change (App.service_permissions (without_hostnames args)) with (App.service_permissions args).
  destruct (App.service_permissions args) as [|p ps]; cbn.
  all: split; [repeat (constructor; [intros [H|H]; discriminate H|]); constructor|].
  all: split; [repeat (constructor; [cbn; intuition discriminate|]); constructor|].
  all: split; [repeat (constructor; [first [left; split; reflexivity | right; reflexivity]|]);
               constructor|].
  all: split; reflexivity.
Qed.
